(** * Shallow embedding of sampctl's compiler package acquisition (compiler.go)

    Go values are modelled as follows:
    - [string] is the Standard Library string (a list of bytes);
    - a [map[string]string] is a [gomap], an association list with unique keys,
      stored in a Go heap and referenced by a location, since a
      [CompilerPackage] struct copy shares its [Paths] map with the original;
    - errors are values of [error]; [(T, error)] results are pairs with an
      [option error];
    - a Go [panic] is the [Panicked] outcome of the state monad [M];
    - calls into the environment (cache directory, file system, download,
      extraction) go through an [Env] record of oracles and are logged in
      the trace of the state. *)

From Stdlib Require Import String Ascii List Bool Arith Lia DecimalString.
From stdpp Require Import base gmap.
Import ListNotations.
Open Scope string_scope.

(** ** Strings: helpers on bytes *)

Module GoString.

Definition is_ident_start (c : ascii) : bool :=
  let n := nat_of_ascii c in
  (Nat.leb 65 n && Nat.leb n 90) || (Nat.leb 97 n && Nat.leb n 122) || Nat.eqb n 95.

Definition is_ident_char (c : ascii) : bool :=
  let n := nat_of_ascii c in
  is_ident_start c || (Nat.leb 48 n && Nat.leb n 57).

Fixpoint all_ident_chars (s : string) : bool :=
  match s with
  | EmptyString => true
  | String c r => is_ident_char c && all_ident_chars r
  end.

(** [strings.TrimSpace], for the ASCII blanks. *)
Definition is_space (c : ascii) : bool :=
  let n := nat_of_ascii c in
  Nat.eqb n 32 || Nat.eqb n 9 || Nat.eqb n 10 || Nat.eqb n 13.

Fixpoint trim_left (s : string) : string :=
  match s with
  | String c r => if is_space c then trim_left r else s
  | EmptyString => EmptyString
  end.

Fixpoint rev_string (s : string) (acc : string) : string :=
  match s with
  | EmptyString => acc
  | String c r => rev_string r (String c acc)
  end.

Definition trim (s : string) : string :=
  rev_string (trim_left (rev_string (trim_left s) "")) "".

(** [strings.Cut s sep] for a one-byte separator. *)
Fixpoint cut (sep : ascii) (s : string) : string * option string :=
  match s with
  | EmptyString => (EmptyString, None)
  | String c r =>
      if Ascii.eqb c sep then (EmptyString, Some r)
      else let '(a, b) := cut sep r in (String c a, b)
  end.

End GoString.

(** ** [html/template] restricted to the templates of this file

    A template is parsed into text and actions [{{ ... }}].  The only action
    the model accepts is a field access [{{.Field}}] (blanks around it are
    allowed); an unclosed action or any other action is a parse error, for
    which [template.Must] panics.  The templates of the catalog contain no
    markup, so every action is in HTML text context and [html/template]
    runs the value through its HTML text escaper [htmlEscaper]. *)

Module Template.

Inductive segment :=
| Text (s : string)
| Field (name : string).

Definition action (content : string) : option segment :=
  match GoString.trim content with
  | String "."%char (String c r as name) =>
      if GoString.is_ident_start c && GoString.all_ident_chars r
      then Some (Field name) else None
  | _ => None
  end.

Fixpoint parse_go (s : string) (in_action : bool) (buf : string)
  : option (list segment) :=
  match s with
  | EmptyString => if in_action then None else Some [Text buf]
  | String "{"%char (String "{"%char rest) =>
      if in_action then parse_go rest true (buf ++ "{{")
      else match parse_go rest true "" with
           | Some segs => Some (Text buf :: segs)
           | None => None
           end
  | String "}"%char (String "}"%char rest) =>
      if in_action then
        match action buf, parse_go rest false "" with
        | Some seg, Some segs => Some (seg :: segs)
        | _, _ => None
        end
      else parse_go rest false (buf ++ "}}")
  | String c rest => parse_go rest in_action (buf ++ String c EmptyString)
  end.

(** [template.New(name).Parse(text)]; [None] is a parse error. *)
Definition Parse (text : string) : option (list segment) := parse_go text false "".

(** [htmlReplacementTable] of html/template. *)
Definition html_replace (c : ascii) : string :=
  match nat_of_ascii c with
  | 0 => String (ascii_of_nat 239) (String (ascii_of_nat 191) (String (ascii_of_nat 189) EmptyString))
  | 34 => "&#34;"
  | 38 => "&amp;"
  | 39 => "&#39;"
  | 43 => "&#43;"
  | 60 => "&lt;"
  | 62 => "&gt;"
  | _ => String c EmptyString
  end.

Fixpoint htmlEscaper (s : string) : string :=
  match s with
  | EmptyString => EmptyString
  | String c r => html_replace c ++ htmlEscaper r
  end.

(** [tmpl.Execute(wr, struct{ Version string }{version})]: [None] is an
    execution error (a field the struct does not have). *)
Fixpoint Execute (segs : list segment) (version : string) : option string :=
  match segs with
  | [] => Some EmptyString
  | Text t :: r => option_map (fun x => t ++ x) (Execute r version)
  | Field f :: r =>
      if String.eqb f "Version"
      then option_map (fun x => htmlEscaper version ++ x) (Execute r version)
      else None
  end.

(** Parsing then executing, as one partial function ([None]: Go panics). *)
Definition resolve_str (tmpl version : string) : option string :=
  match Parse tmpl with
  | None => None
  | Some segs => Execute segs version
  end.

End Template.

(** ** [net/url.Parse] and [path/filepath.Base]

    [url.Parse] as it treats absolute URLs: the fragment is cut at the first
    [#], a control byte before it is an error, the query is cut at the first
    [?], the scheme is read up to the first [:], an authority introduced by
    [//] runs to the next [/], and the path and the fragment are unescaped,
    a malformed [%] escape being an error.  Host validation is left out (the
    catalog's host is the constant [github.com]). *)

Module URL.

Definition is_ctl (c : ascii) : bool :=
  let n := nat_of_ascii c in Nat.ltb n 32 || Nat.eqb n 127.

Fixpoint has_ctl (s : string) : bool :=
  match s with
  | EmptyString => false
  | String c r => is_ctl c || has_ctl r
  end.

Definition unhex (c : ascii) : option nat :=
  let n := nat_of_ascii c in
  if Nat.leb 48 n && Nat.leb n 57 then Some (n - 48)
  else if Nat.leb 97 n && Nat.leb n 102 then Some (n - 87)
  else if Nat.leb 65 n && Nat.leb n 70 then Some (n - 55)
  else None.

(** [unescape]: [%XX] becomes the byte [XX]; a [%] not followed by two hex
    digits is an error. *)
Fixpoint unescape (s : string) : option string :=
  match s with
  | EmptyString => Some EmptyString
  | String "%"%char r =>
      match r with
      | String h (String l r') =>
          match unhex h, unhex l, unescape r' with
          | Some a, Some b, Some u => Some (String (ascii_of_nat (16 * a + b)) u)
          | _, _, _ => None
          end
      | _ => None
      end
  | String c r => option_map (String c) (unescape r)
  end.

Definition is_alpha (c : ascii) : bool := GoString.is_ident_start c && negb (Ascii.eqb c "_"%char).

Definition is_scheme_char (c : ascii) : bool :=
  let n := nat_of_ascii c in
  is_alpha c || (Nat.leb 48 n && Nat.leb n 57) || Nat.eqb n 43 || Nat.eqb n 45 || Nat.eqb n 46.

(** [getScheme]: [None] is the error of a leading [:], [Some None] a URL
    without scheme, [Some (Some (scheme, rest))] a scheme and what follows
    its [:]. *)
Fixpoint get_scheme (s : string) (first : bool) : option (option (string * string)) :=
  match s with
  | EmptyString => Some None
  | String c r =>
      if Ascii.eqb c ":"%char then (if first then None else Some (Some (EmptyString, r)))
      else if is_alpha c || (negb first && is_scheme_char c) then
        match get_scheme r false with
        | Some (Some (sch, rest)) => Some (Some (String c sch, rest))
        | x => x
        end
      else Some None
  end.

(** The path of a URL: the part of [rest] after the authority. *)
Definition after_authority (rest : string) : string :=
  match rest with
  | String "/"%char (String "/"%char r) =>
      let '(_, p) := GoString.cut "/"%char r in
      match p with Some p' => String "/"%char p' | None => EmptyString end
  | _ => rest
  end.

(** [url.Parse(raw)]; the result is [u.Path]. *)
Definition Parse (raw : string) : option string :=
  let '(u, frag) := GoString.cut "#"%char raw in
  if has_ctl u then None else
  match get_scheme u true with
  | None => None
  | Some sch =>
      let rest0 := match sch with Some (_, r) => r | None => u end in
      let '(rest, _) := GoString.cut "?"%char rest0 in
      match unescape (after_authority rest), option_map unescape frag with
      | Some p, (None | Some (Some _)) => Some p
      | _, _ => None
      end
  end.

End URL.

Module FilePath.

(** Path separators of the target: [/], and also [\] on Windows. *)
Definition is_sep (goos : string) (c : ascii) : bool :=
  Ascii.eqb c "/"%char || (String.eqb goos "windows" && Ascii.eqb c "\"%char).

Fixpoint drop_trailing (goos : string) (rs : string) : string :=
  match rs with
  | String c r => if is_sep goos c then drop_trailing goos r else rs
  | EmptyString => EmptyString
  end.

Fixpoint take_to_sep (goos : string) (rs : string) : string :=
  match rs with
  | String c r => if is_sep goos c then EmptyString else String c (take_to_sep goos r)
  | EmptyString => EmptyString
  end.

(** [filepath.Base], computed on the reversed path (volume names left out). *)
Definition Base (goos : string) (p : string) : string :=
  if String.eqb p EmptyString then "." else
  let rs := drop_trailing goos (GoString.rev_string p EmptyString) in
  if String.eqb rs EmptyString then "/" else
  GoString.rev_string (take_to_sep goos rs) EmptyString.

End FilePath.

(** ** Values of the program *)

(** The extraction methods [Unzip] and [Untar] (the function values of the
    [Method] field); [None] in a [Method] field is Go's nil function. *)
Inductive ExtractFunc := Unzip | Untar.

Definition ExtractFunc_eqb (a b : ExtractFunc) : bool :=
  match a, b with Unzip, Unzip | Untar, Untar => true | _, _ => false end.

(** [error] values: [errors.Errorf] and [errors.Wrap]/[errors.Wrapf]. *)
Inductive error :=
| Errorf (msg : string)
| Wrap (cause : error) (msg : string).

(** [err.Error()]: [errors.Wrap(cause, msg)] prints as [msg: cause]. *)
Fixpoint error_message (e : error) : string :=
  match e with
  | Errorf msg => msg
  | Wrap cause msg => msg ++ ": " ++ error_message cause
  end.

(** A [map[string]string]: association list with unique keys, iterated in
    list order (Go's iteration order is unspecified). *)
Abbreviation gomap := (list (string * string)).

(** [m[k] = v]. *)
Fixpoint gomap_insert (k v : string) (m : gomap) : gomap :=
  match m with
  | [] => [(k, v)]
  | (k', v') :: r =>
      if String.eqb k k' then (k, v) :: r else (k', v') :: gomap_insert k v r
  end.

(** Heap locations of maps. *)
Abbreviation loc := positive.

(** [type CompilerPackage struct { URL string; Method ExtractFunc; Paths map[string]string }];
    [Paths = None] is a nil map. *)
Record CompilerPackage := mkCompilerPackage {
  URL : string;
  Method : option ExtractFunc;
  Paths : option loc
}.

Definition zero_CompilerPackage : CompilerPackage := mkCompilerPackage "" None None.

(** The package-level variables [pawnMacOS], [pawnLinux], [pawnWin32]. *)
Record Catalog := mkCatalog {
  pawnMacOS : CompilerPackage;
  pawnLinux : CompilerPackage;
  pawnWin32 : CompilerPackage
}.

(** Calls into the environment, with their results, as the trace logs them. *)
Inductive Event :=
| EvPrint (s : string)
| EvPrintPaths (m : gomap)
| EvGetCacheDir (res : string * option error)
| EvExists (p : string) (res : bool)
| EvMkdirAll (p : string) (res : option error)
| EvFromCache (cacheDir filename dir : string) (method : option ExtractFunc)
    (paths : gomap) (res : bool * option error)
| EvFromNet (url cacheDir filename : string) (res : string * option error)
| EvExtract (method : ExtractFunc) (path dir : string) (paths : gomap) (res : option error).

(** Events that touch the file system or the network. *)
Definition is_fs_or_net (e : Event) : bool :=
  match e with
  | EvExists _ _ | EvMkdirAll _ _ | EvFromCache _ _ _ _ _ _
  | EvFromNet _ _ _ _ | EvExtract _ _ _ _ _ => true
  | EvPrint _ | EvPrintPaths _ | EvGetCacheDir _ => false
  end.

Definition is_FromNet (e : Event) : bool :=
  match e with EvFromNet _ _ _ _ => true | _ => false end.

Definition is_Extract (e : Event) : bool :=
  match e with EvExtract _ _ _ _ _ => true | _ => false end.

(** ** The state monad with panics *)

Inductive outcome (S A : Type) :=
| Done (s : S) (a : A)
| Panicked (s : S) (msg : string).
Arguments Done {S A}.
Arguments Panicked {S A}.

Definition M (S A : Type) := S -> outcome S A.

Definition ret {S A} (a : A) : M S A := fun s => Done s a.

Definition bind {S A B} (m : M S A) (k : A -> M S B) : M S B :=
  fun s => match m s with
           | Done s' a => k a s'
           | Panicked s' msg => Panicked s' msg
           end.

Definition go_panic {S A} (msg : string) : M S A := fun s => Panicked s msg.

Notation "x <- m ;; k" := (bind m (fun x => k))
  (at level 100, m at next level, right associativity).
Notation "m ;;; k" := (bind m (fun _ => k)) (at level 100, right associativity).

(** ** The program *)

Section Program.

(** The state of the machine outside the process: file system and network. *)
Variable World : Type.

(** [runtime.GOOS]. *)
Variable GOOS : string.

(** The environment the code calls: [GetCacheDir], [exists], [os.MkdirAll],
    [FromCache], [FromNet] and the extraction functions [Unzip]/[Untar]. *)
Record Env := mkEnv {
  env_GetCacheDir : World -> World * (string * option error);
  env_exists : World -> string -> bool;
  env_MkdirAll : World -> string -> World * option error;
  env_FromCache : World -> string -> string -> string -> option ExtractFunc -> gomap ->
                  World * (bool * option error);
  env_FromNet : World -> string -> string -> string -> World * (string * option error);
  env_Extract : World -> ExtractFunc -> string -> string -> gomap -> World * option error
}.

Variable env : Env.

(** Process state: the outside world, the trace of calls made, the Go heap
    of maps, the next free heap location and the package-level variables. *)
Record St := mkSt {
  world : World;
  trace : list Event;
  heap : gmap loc gomap;
  next : loc;
  globals : Catalog
}.

Definition log_call (w : World) (e : Event) : M St unit :=
  fun s => Done (mkSt w (trace s ++ [e]) (heap s) (next s) (globals s)) tt.

Definition cur_world : M St World := fun s => Done s (world s).

Definition get_globals : M St Catalog := fun s => Done s (globals s).

(** [make(map[string]string)]. *)
Definition make_map : M St loc :=
  fun s => Done (mkSt (world s) (trace s) (<[next s := []]> (heap s))
                      (Pos.succ (next s)) (globals s)) (next s).

(** Reading a map (a nil map reads as empty). *)
Definition map_read (m : option loc) : M St gomap :=
  fun s => Done s (match m with
                   | Some l => default [] (heap s !! l)
                   | None => []
                   end).

(** [m[k] = v]. *)
Definition map_store (l : loc) (k v : string) : M St unit :=
  fun s => Done (mkSt (world s) (trace s)
                      (<[l := gomap_insert k v (default [] (heap s !! l))]> (heap s))
                      (next s) (globals s)) tt.

Definition Printf (msg : string) : M St unit :=
  w <- cur_world ;; log_call w (EvPrint msg).

Definition PrintlnPaths (m : gomap) : M St unit :=
  w <- cur_world ;; log_call w (EvPrintPaths m).

Definition GetCacheDir : M St (string * option error) :=
  w <- cur_world ;;
  let '(w', r) := env_GetCacheDir env w in
  log_call w' (EvGetCacheDir r) ;;; ret r.

Definition exists_ (p : string) : M St bool :=
  w <- cur_world ;;
  let b := env_exists env w p in
  log_call w (EvExists p b) ;;; ret b.

Definition MkdirAll (p : string) : M St (option error) :=
  w <- cur_world ;;
  let '(w', r) := env_MkdirAll env w p in
  log_call w' (EvMkdirAll p r) ;;; ret r.

Definition FromCache (cacheDir filename dir : string) (method : option ExtractFunc)
    (paths : gomap) : M St (bool * option error) :=
  w <- cur_world ;;
  let '(w', r) := env_FromCache env w cacheDir filename dir method paths in
  log_call w' (EvFromCache cacheDir filename dir method paths r) ;;; ret r.

Definition FromNet (url cacheDir filename : string) : M St (string * option error) :=
  w <- cur_world ;;
  let '(w', r) := env_FromNet env w url cacheDir filename in
  log_call w' (EvFromNet url cacheDir filename r) ;;; ret r.

(** Calling the function value [pkg.Method]; calling a nil function panics. *)
Definition call_Method (method : option ExtractFunc) (path dir : string) (paths : gomap)
  : M St (option error) :=
  match method with
  | None => go_panic "invalid memory address or nil pointer dereference"
  | Some m =>
      w <- cur_world ;;
      let '(w', r) := env_Extract env w m path dir paths in
      log_call w' (EvExtract m path dir paths r) ;;; ret r
  end.

(** [template.Must(template.New(..).Parse(tmpl))], [tmpl.Execute] on
    [struct{ Version string }{version}], and [panic(err)] on an execution
    error. *)
Definition resolve (tmpl version : string) : M St string :=
  match Template.Parse tmpl with
  | None => go_panic "template: parse error"
  | Some segs =>
      match Template.Execute segs version with
      | None => go_panic "template: exec error"
      | Some out => ret out
      end
  end.

(** The loop [for source, target := range pkg.Paths { ... newPaths[..] = .. }]. *)
Fixpoint resolve_paths (entries : gomap) (version : string) (newPaths : loc) : M St unit :=
  match entries with
  | [] => ret tt
  | (source, target) :: rest =>
      src <- resolve source version ;;
      tgt <- resolve target version ;;
      map_store newPaths src tgt ;;;
      resolve_paths rest version newPaths
  end.

Definition select (os : string) (cat : Catalog) : option CompilerPackage :=
  if String.eqb os "windows" then Some (pawnWin32 cat)
  else if String.eqb os "linux" then Some (pawnLinux cat)
  else if String.eqb os "darwin" then Some (pawnMacOS cat)
  else None.

(** [GetCompilerPackageInfo(os, version) (pkg, filename, err)]. *)
Definition GetCompilerPackageInfo (os version : string)
  : M St (CompilerPackage * string * option error) :=
  cat <- get_globals ;;
  match select os cat with
  | None => ret (zero_CompilerPackage, "", Some (Errorf ("unsupported OS " ++ GOOS)))
  | Some pkg =>
      url <- resolve (URL pkg) version ;;
      newPaths <- make_map ;;
      entries <- map_read (Paths pkg) ;;
      resolve_paths entries version newPaths ;;;
      let pkg' := mkCompilerPackage url (Method pkg) (Some newPaths) in
      match URL.Parse url with
      | None => ret (pkg', "", Some (Errorf ("parse " ++ url ++ ": invalid URL")))
      | Some p => ret (pkg', FilePath.Base GOOS p, None)
      end
  end.

(** [CompilerFromCache(cacheDir, version, dir) (hit bool, err error)]. *)
Definition CompilerFromCache (cacheDir version dir : string) : M St (bool * option error) :=
  info <- GetCompilerPackageInfo GOOS version ;;
  let '(pkg, filename, err) := info in
  match err with
  | Some e => ret (false, Some e)
  | None =>
      paths <- map_read (Paths pkg) ;;
      r <- FromCache cacheDir filename dir (Method pkg) paths ;;
      let '(hit, err) := r in
      if negb hit then ret (false, None) else ret (hit, err)
  end.

(** [if !exists(p) { err := os.MkdirAll(p, 0755); if err != nil { return errors.Wrapf(err, msg) } }]. *)
Definition ensure_dir (p msg : string) : M St (option error) :=
  b <- exists_ p ;;
  if negb b then
    err <- MkdirAll p ;;
    match err with
    | Some e => ret (Some (Wrap e msg))
    | None => ret None
    end
  else ret None.

(** [CompilerFromNet(cacheDir, version, dir) (err error)]. *)
Definition CompilerFromNet (cacheDir version dir : string) : M St (option error) :=
  info <- GetCompilerPackageInfo GOOS version ;;
  let '(pkg, filename, err) := info in
  match err with
  | Some e => ret (Some (Wrap e "package info mismatch"))
  | None =>
      paths <- map_read (Paths pkg) ;;
      PrintlnPaths paths ;;;
      err1 <- ensure_dir dir ("failed to create dir " ++ dir) ;;
      match err1 with
      | Some e => ret (Some e)
      | None =>
          err2 <- ensure_dir cacheDir ("failed to create cache " ++ cacheDir) ;;
          match err2 with
          | Some e => ret (Some e)
          | None =>
              r <- FromNet (URL pkg) cacheDir filename ;;
              let '(path, err) := r in
              match err with
              | Some e => ret (Some (Wrap e "failed to download package"))
              | None =>
                  paths' <- map_read (Paths pkg) ;;
                  err <- call_Method (Method pkg) path dir paths' ;;
                  match err with
                  | Some e => ret (Some (Wrap e ("failed to unzip package " ++ path)))
                  | None => ret None
                  end
              end
          end
      end
  end.

(** [GetCompilerPackage(version, dir) (err error)]. *)
Definition GetCompilerPackage (version dir : string) : M St (option error) :=
  Printf "Downloading compiler package" ;;;
  r <- GetCacheDir ;;
  let '(cacheDir, err) := r in
  match err with
  | Some e => ret (Some e)
  | None =>
      r <- CompilerFromCache cacheDir version dir ;;
      let '(hit, err) := r in
      match err with
      | Some e => ret (Some (Wrap e ("failed to get package " ++ version ++ " from cache")))
      | None =>
          if hit then ret None else
          err <- CompilerFromNet cacheDir version dir ;;
          match err with
          | Some e => ret (Some (Wrap e ("failed to get package " ++ version ++ " from net")))
          | None => ret None
          end
      end
  end.

End Program.

Arguments mkEnv {World}.
Arguments env_GetCacheDir {World}.
Arguments env_exists {World}.
Arguments env_MkdirAll {World}.
Arguments env_FromCache {World}.
Arguments env_FromNet {World}.
Arguments env_Extract {World}.
Arguments mkSt {World}.
Arguments world {World}.
Arguments trace {World}.
Arguments heap {World}.
Arguments next {World}.
Arguments globals {World}.

(** ** The catalog as the process initializes it *)

Definition pawnMacOS_Paths : gomap :=
  [("pawnc-{{.Version}}-darwin/bin/pawncc", "pawncc");
   ("pawnc-{{.Version}}-darwin/lib/libpawnc.dylib", "libpawnc.dylib")].

Definition pawnLinux_Paths : gomap :=
  [("pawnc-{{.Version}}-linux/bin/pawncc", "pawncc");
   ("pawnc-{{.Version}}-linux/lib/libpawnc.so", "libpawnc.so")].

Definition pawnWin32_Paths : gomap :=
  [("pawnc-{{.Version}}-windows/bin/pawncc.exe", "pawncc.exe");
   ("pawnc-{{.Version}}-windows/bin/pawnc.dll", "pawnc.dll")].

Definition catalog_init : Catalog := {|
  pawnMacOS := mkCompilerPackage
    "https://github.com/Zeex/pawn/releases/download/v{{.Version}}/pawnc-{{.Version}}-darwin.zip"
    (Some Unzip) (Some 1%positive);
  pawnLinux := mkCompilerPackage
    "https://github.com/Zeex/pawn/releases/download/v{{.Version}}/pawnc-{{.Version}}-linux.tar.gz"
    (Some Untar) (Some 2%positive);
  pawnWin32 := mkCompilerPackage
    "https://github.com/Zeex/pawn/releases/download/v{{.Version}}/pawnc-{{.Version}}-windows.zip"
    (Some Unzip) (Some 3%positive) |}.

Definition heap_init : gmap loc gomap :=
  <[3%positive := pawnWin32_Paths]> (<[2%positive := pawnLinux_Paths]>
    (<[1%positive := pawnMacOS_Paths]> ∅)).

(** The state of a freshly started process in a world [w]. *)
Definition init_st {World} (w : World) : St World :=
  mkSt w [] heap_init 4%positive catalog_init.

(** Running a computation from a state. *)
Definition run {World A} (m : M (St World) A) (s : St World) : outcome (St World) A := m s.

(** The resolution loop of [GetCompilerPackageInfo] as a pure function: the
    map [newPaths] built from [entries], or [None] when a template panics. *)
Fixpoint resolve_entries (entries : gomap) (version : string) (acc : gomap) : option gomap :=
  match entries with
  | [] => Some acc
  | (source, target) :: rest =>
      match Template.resolve_str source version, Template.resolve_str target version with
      | Some s, Some t => resolve_entries rest version (gomap_insert s t acc)
      | _, _ => None
      end
  end.

(** The final state of a run, whether it returned or panicked. *)
Definition out_state {S A} (o : outcome S A) : S :=
  match o with Done s _ => s | Panicked s _ => s end.

(** ** Placeholders and the spec's literal substitution *)

(** Scanning [s] for [{{], the opening of a template action; [prev]: the
    character before [s] was [{]. *)
Fixpoint dbrace_after (prev : bool) (s : string) : bool :=
  match s with
  | EmptyString => false
  | String c r =>
      let b := Ascii.eqb c "{"%char in
      (prev && b) || dbrace_after b r
  end.

(** Was the last character of [s] a [{] ([prev] when [s] is empty)? *)
Fixpoint last_brace (prev : bool) (s : string) : bool :=
  match s with
  | EmptyString => prev
  | String c r => last_brace (Ascii.eqb c "{"%char) r
  end.

(** Does [s] contain [{{]? *)
Definition has_dbrace (s : string) : bool := dbrace_after false s.

Definition placeholder : string := "{{.Version}}".

(** The resolution the spec describes: every occurrence of the placeholder
    replaced by the version string, verbatim. *)
Fixpoint literal_subst_fuel (fuel : nat) (tmpl version : string) : string :=
  match fuel with
  | O => tmpl
  | S f =>
      match tmpl with
      | EmptyString => EmptyString
      | String c r =>
          if String.prefix placeholder tmpl
          then version ++ literal_subst_fuel f (substring (String.length placeholder)
                                                 (String.length tmpl) tmpl) version
          else String c (literal_subst_fuel f r version)
      end
  end.

Definition literal_subst (tmpl version : string) : string :=
  literal_subst_fuel (String.length tmpl) tmpl version.

(** ** Orderings of calls in a trace *)

(** Does event [e] establish that directory [p] exists: an [exists] check
    that answered true, or an [os.MkdirAll] that succeeded? *)
Definition ensures_dir (p : string) (e : Event) : bool :=
  match e with
  | EvExists q true => String.eqb p q
  | EvMkdirAll q None => String.eqb p q
  | _ => false
  end.

(** Every event selected by [is_target] comes after an event that ensures [p]. *)
Fixpoint ensured_before (p : string) (is_target : Event -> bool) (seen : bool)
    (t : list Event) : bool :=
  match t with
  | [] => true
  | e :: r =>
      (if is_target e then seen else true) &&
      ensured_before p is_target (seen || ensures_dir p e) r
  end.

Definition is_FromCache (e : Event) : bool :=
  match e with EvFromCache _ _ _ _ _ _ => true | _ => false end.

(** A process state whose package-level variables and their maps are as
    initialized, with the allocator past them. *)
Definition catalog_ok {World} (s : St World) : Prop :=
  globals s = catalog_init /\
  heap s !! 1%positive = Some pawnMacOS_Paths /\
  heap s !! 2%positive = Some pawnLinux_Paths /\
  heap s !! 3%positive = Some pawnWin32_Paths /\
  (3 < next s)%positive.

(** The map of a catalog entry as initialized. *)
Definition catalog_entries (pkg : CompilerPackage) : gomap :=
  match Paths pkg with
  | Some l => default [] (heap_init !! l)
  | None => []
  end.

(** The [url.Parse]/[filepath.Base] tail of [GetCompilerPackageInfo]. *)
Definition parse_filename (goos url : string) : string * option error :=
  match URL.Parse url with
  | None => ("", Some (Errorf ("parse " ++ url ++ ": invalid URL")))
  | Some p => (FilePath.Base goos p, None)
  end.

(** The catalog's templates with the version substituted as html/template
    does it. *)
Definition pawn_url (osname ext version : string) : string :=
  "https://github.com/Zeex/pawn/releases/download/v" ++ Template.htmlEscaper version ++
  "/pawnc-" ++ Template.htmlEscaper version ++ "-" ++ osname ++ ext.

Definition pawn_member (osname path version : string) : string :=
  "pawnc-" ++ Template.htmlEscaper version ++ "-" ++ osname ++ "/" ++ path.

(** The rows of the catalog: OS, archive extension, and the two members
    with their install names. *)
Definition catalog_rows : list (string * string * string * string * string * string) :=
  [("darwin", ".zip", "bin/pawncc", "pawncc", "lib/libpawnc.dylib", "libpawnc.dylib");
   ("linux", ".tar.gz", "bin/pawncc", "pawncc", "lib/libpawnc.so", "libpawnc.so");
   ("windows", ".zip", "bin/pawncc.exe", "pawncc.exe", "bin/pawnc.dll", "pawnc.dll")].

(** Every allocated map lies below the allocator. *)
Definition heap_wf {World} (s : St World) : Prop :=
  forall l, is_Some (heap s !! l) -> (l < next s)%positive.

(** ** Concrete environments for the examples *)

Definition cache_root : string := "/home/u/.samp".

(** An environment whose cached archive is unreadable: [FromCache] reports
    a miss together with the error. *)
Definition env_corrupt_cache : Env unit :=
  mkEnv (fun w => (w, (cache_root, None)))
        (fun _ _ => true)
        (fun w _ => (w, None))
        (fun w _ _ _ _ _ => (w, (false, Some (Errorf "zip: not a valid zip file"))))
        (fun w _ c f => (w, (c ++ "/" ++ f, None)))
        (fun w _ _ _ _ => (w, None)).

(** An environment whose [FromCache] reports a hit together with an error. *)
Definition env_hit_with_error : Env unit :=
  mkEnv (fun w => (w, (cache_root, None)))
        (fun _ _ => true)
        (fun w _ => (w, None))
        (fun w _ _ _ _ _ => (w, (true, Some (Errorf "failed to write pawncc"))))
        (fun w _ c f => (w, (c ++ "/" ++ f, None)))
        (fun w _ _ _ _ => (w, None)).

(** An environment with a clean cache hit. *)
Definition env_cache_hit : Env unit :=
  mkEnv (fun w => (w, (cache_root, None)))
        (fun _ _ => true)
        (fun w _ => (w, None))
        (fun w _ _ _ _ _ => (w, (true, None)))
        (fun w _ c f => (w, (c ++ "/" ++ f, None)))
        (fun w _ _ _ _ => (w, None)).

(** An environment whose cache directory cannot be determined. *)
Definition env_no_cache_dir : Env unit :=
  mkEnv (fun w => (w, ("", Some (Errorf "failed to get home directory"))))
        (fun _ _ => true)
        (fun w _ => (w, None))
        (fun w _ _ _ _ _ => (w, (false, None)))
        (fun w _ c f => (w, (c ++ "/" ++ f, None)))
        (fun w _ _ _ _ => (w, None)).

(** A catalog whose linux URL template misses a closing brace, and a
    process started with it. *)
Definition catalog_malformed : Catalog := {|
  pawnMacOS := pawnMacOS catalog_init;
  pawnLinux := mkCompilerPackage
    "https://github.com/Zeex/pawn/releases/download/v{{.Version}/pawnc-{{.Version}}-linux.tar.gz"
    (Some Untar) (Some 2%positive);
  pawnWin32 := pawnWin32 catalog_init |}.

Definition malformed_st : St unit := mkSt tt [] heap_init 4%positive catalog_malformed.

(** ** The cache store and the network fetcher *)

(** Modelled from the spec: the cache store, the network fetcher and the
    extraction strategies. *)
Module Store.

Inductive blob :=
| Bytes (content : string)
| Archive (format : ExtractFunc) (members : list (string * string)).

Record world := mkWorld {
  fs : string -> option blob;
  dirs : string -> bool;
  remote : string -> option blob
}.

Definition join (d n : string) : string := d ++ "/" ++ n.

Definition upd (f : string -> option blob) (k : string) (v : blob) : string -> option blob :=
  fun k' => if String.eqb k' k then Some v else f k'.

Fixpoint apply_writes (f : string -> option blob) (ws : list (string * blob)) : string -> option blob :=
  match ws with
  | [] => f
  | (p, b) :: r => apply_writes (upd f p b) r
  end.

Fixpoint assoc (k : string) (l : list (string * string)) : option string :=
  match l with
  | [] => None
  | (k', v) :: r => if String.eqb k k' then Some v else assoc k r
  end.

Fixpoint extract_members (members : list (string * string)) (dir : string) (paths : gomap)
  : list (string * blob) * option error :=
  match paths with
  | [] => ([], None)
  | (src, tgt) :: r =>
      match assoc src members with
      | None => ([], Some (Errorf ("missing member " ++ src)))
      | Some c =>
          let '(ws, e) := extract_members members dir r in
          ((join dir tgt, Bytes c) :: ws, e)
      end
  end.

Definition extract_plan (m : ExtractFunc) (b : blob) (dir : string) (paths : gomap)
  : list (string * blob) * option error :=
  match b with
  | Archive fmt members =>
      if ExtractFunc_eqb fmt m then extract_members members dir paths
      else ([], Some (Errorf "not a valid archive"))
  | Bytes _ => ([], Some (Errorf "not a valid archive"))
  end.

Definition extract (w : world) (m : ExtractFunc) (path dir : string) (paths : gomap)
  : world * option error :=
  match fs w path with
  | None => (w, Some (Errorf ("open " ++ path ++ ": no such file or directory")))
  | Some b =>
      let '(ws, e) := extract_plan m b dir paths in
      (mkWorld (apply_writes (fs w) ws) (dirs w) (remote w), e)
  end.

Definition satisfy (w : world) (cacheDir filename dir : string) (method : option ExtractFunc)
    (paths : gomap) : world * (bool * option error) :=
  let path := join cacheDir filename in
  match fs w path, method with
  | None, _ => (w, (false, None))
  | Some _, None => (w, (false, Some (Errorf "no extraction strategy")))
  | Some _, Some m =>
      let '(w', e) := extract w m path dir paths in
      match e with
      | None => (w', (true, None))
      | Some e => (w', (false, Some (Wrap e ("corrupt cache entry " ++ path))))
      end
  end.

Definition fetch (w : world) (url cacheDir filename : string) : world * (string * option error) :=
  match remote w url with
  | None => (w, ("", Some (Errorf ("GET " ++ url ++ ": 404 Not Found"))))
  | Some b =>
      let path := join cacheDir filename in
      (mkWorld (upd (fs w) path b) (dirs w) (remote w), (path, None))
  end.

Definition env : Env world :=
  mkEnv (fun w => (w, (cache_root, None)))
        (fun w p => dirs w p)
        (fun w p => (mkWorld (fs w) (fun q => String.eqb q p || dirs w q) (remote w), None))
        satisfy
        fetch
        extract.

End Store.

(** A world where the cache and the install directories are empty and the
    release archive of [version] for linux is served at its URL. *)
Definition release_world (version : string) : Store.world :=
  Store.mkWorld (fun _ => None) (fun _ => false)
    (fun url =>
       if String.eqb url (pawn_url "linux" ".tar.gz" version) then
         Some (Store.Archive Untar
                 [(pawn_member "linux" "bin/pawncc" version, "pawncc image");
                  (pawn_member "linux" "lib/libpawnc.so" version, "libpawnc.so image")])
       else None).

(** No install path of the descriptor of [version] is the cache file it
    is installed from. *)
Definition no_clobber (goos version dir : string) : bool :=
  match GetCompilerPackageInfo unit goos goos version (init_st tt) with
  | Done s (pkg, fn, None) =>
      forallb (fun kv => negb (String.eqb (Store.join dir (snd kv)) (Store.join cache_root fn)))
        (match Paths pkg with Some l => default [] (heap s !! l) | None => [] end)
  | _ => true
  end.


(** ** [path/filepath] and [strings] on a Unix target

    On a target other than Windows the separator is [/] and volume names
    are empty; the functions follow the lexical algorithms of
    [path/filepath]. *)

Module UnixPath.

Definition is_sep (c : ascii) : bool := Ascii.eqb c "/"%char.

(** [strings.Split(p, "/")]. *)
Fixpoint split_sep (s : string) : list string :=
  match s with
  | EmptyString => [EmptyString]
  | String c r =>
      if is_sep c then EmptyString :: split_sep r
      else match split_sep r with
           | x :: xs => String c x :: xs
           | [] => [String c EmptyString]
           end
  end.

(** The elements [Clean] keeps, last one first: [""] and ["."] are dropped,
    [".."] removes the last kept element unless that is [".."] itself, and
    at the root a [".."] is dropped. *)
Fixpoint clean_stack (rooted : bool) (es : list string) (st : list string) : list string :=
  match es with
  | [] => st
  | e :: r =>
      if String.eqb e "" || String.eqb e "." then clean_stack rooted r st
      else if String.eqb e ".." then
        match st with
        | x :: st' =>
            if String.eqb x ".." then clean_stack rooted r (".." :: st)
            else clean_stack rooted r st'
        | [] => if rooted then clean_stack rooted r [] else clean_stack rooted r [".."]
        end
      else clean_stack rooted r (e :: st)
  end.

Definition rooted (p : string) : bool :=
  match p with String c _ => is_sep c | EmptyString => false end.

(** [filepath.Clean]. *)
Definition Clean (p : string) : string :=
  if String.eqb p "" then "." else
  let body := String.concat "/" (rev (clean_stack (rooted p) (split_sep p) [])) in
  let out := if rooted p then "/" ++ body else body in
  if String.eqb out "" then "." else out.

(** [filepath.Join(dir, name)]. *)
Definition Join (dir name : string) : string :=
  if negb (String.eqb dir "") then Clean (dir ++ "/" ++ name)
  else if negb (String.eqb name "") then Clean name
  else "".

Fixpoint drop_to_sep (rs : string) : string :=
  match rs with
  | EmptyString => EmptyString
  | String c r => if is_sep c then rs else drop_to_sep r
  end.

(** [filepath.Dir]: [Clean] of the path up to and including its last
    separator. *)
Definition Dir (p : string) : string :=
  Clean (GoString.rev_string (drop_to_sep (GoString.rev_string p "")) "").

(** [filepath.Base]. *)
Definition Base (p : string) : string := FilePath.Base "linux" p.

(** [filepath.Ext], scanning the reversed path: [acc] holds the bytes after
    the current one. *)
Fixpoint ext_rev (rs : string) (acc : string) : string :=
  match rs with
  | EmptyString => EmptyString
  | String c r =>
      if is_sep c then EmptyString
      else if Ascii.eqb c "."%char then String c acc
      else ext_rev r (String c acc)
  end.

Definition Ext (p : string) : string := ext_rev (GoString.rev_string p "") "".

(** The first element of [s] and what follows its separator ([None] when
    the element runs to the end of [s]). *)
Definition first_elem (s : string) : string * option string := GoString.cut "/"%char s.

Fixpoint count_sep (s : string) : nat :=
  match s with
  | EmptyString => 0
  | String c r => (if is_sep c then 1 else 0) + count_sep r
  end.

(** The loop of [filepath.Rel] that skips the common leading elements:
    [bs] and [ts] are [base[b0:]] and [targ[t0:]]; the result is
    [(base[b0:bi], base[b0:], targ[t0:])] at the first differing element. *)
Fixpoint rel_loop (fuel : nat) (bs ts : string) : string * string * string :=
  let '(be, br) := first_elem bs in
  let '(te, tr) := first_elem ts in
  match fuel with
  | O => (be, bs, ts)
  | S f =>
      if String.eqb te be then
        rel_loop f (match br with Some r => r | None => "" end)
                   (match tr with Some r => r | None => "" end)
      else (be, bs, ts)
  end.

Fixpoint repeat_string (n : nat) (s : string) : string :=
  match n with O => "" | S k => s ++ repeat_string k s end.

(** [filepath.Rel(basepath, targpath)]. *)
Definition Rel (basepath targpath : string) : string * option error :=
  let base := Clean basepath in
  let targ := Clean targpath in
  if String.eqb targ base then (".", None) else
  let base := if String.eqb base "." then "" else base in
  if negb (Bool.eqb (rooted base) (rooted targ)) then
    ("", Some (Errorf ("Rel: can't make " ++ targpath ++ " relative to " ++ basepath)))
  else
    let '(be, bs, ts) := rel_loop (String.length base + String.length targ + 1) base targ in
    if String.eqb be ".." then
      ("", Some (Errorf ("Rel: can't make " ++ targpath ++ " relative to " ++ basepath)))
    else if negb (String.eqb bs "") then
      (".." ++ repeat_string (count_sep bs) "/.." ++ (if String.eqb ts "" then "" else "/" ++ ts), None)
    else (ts, None).

End UnixPath.

Module Strings.

(** [strings.HasSuffix] and [strings.TrimSuffix]. *)
Definition HasSuffix (s suffix : string) : bool :=
  Nat.leb (String.length suffix) (String.length s) &&
  String.eqb (substring (String.length s - String.length suffix) (String.length suffix) s) suffix.

Definition TrimSuffix (s suffix : string) : string :=
  if HasSuffix s suffix then substring 0 (String.length s - String.length suffix) s else s.

End Strings.


(** ** rook: [Init] and [getTemplateFile] *)

(** A question of [survey]: its [Name], its [Prompt], and whether its
    [Validate] is [survey.Required]. *)
Inductive Prompt :=
| PSelect (message : string) (options : list string)
| PInput (message default : string)
| PConfirm (message : string) (default : bool)
| PMultiSelect (message : string) (options : list string).

Record Question := mkQuestion {
  QName : string;
  QPrompt : Prompt;
  QRequired : bool
}.

(** The [answers] struct [Init] fills with [survey.Ask]. *)
Module answers.
Record t := mk {
  Format : string;
  User : string;
  Repo : string;
  GitIgnore : bool;
  Readme : bool;
  Editor : string;
  StdLib : bool;
  EntryGenerate : list string;
  Entry : string
}.
End answers.

(** The fields of [types.Package] that [Init] sets ([User] and [Repo] are
    those of its [DependencyMeta]); the others keep their zero values. *)
Module types.
Record Package := mkPackage {
  Parent : bool;
  Local : string;
  Format : string;
  User : string;
  Repo : string;
  Entry : string;
  Output : string;
  Dependencies : list string
}.
End types.

(** Calls into the environment made by [Init] and [getTemplateFile], with
    their results.  [RSpawn f] is the statement [go func() {
    getTemplateFile(dir, f); wg.Done() }()]: the goroutine runs concurrently
    and its result is discarded; [RWait] is [wg.Wait()]. *)
Inductive REvent :=
| RExists (p : string) (res : bool)
| RWalk (root : string) (visits : list (string * option bool))
| RGreen (msg : string)
| RRed (msg : string)
| RWarn (msg : string)
| RErro (e : error)
| RAsk (qs : list Question) (res : answers.t * option error)
| RWriteFile (path content : string) (res : option error)
| RSpawn (filename : string)
| RWait
| RWriteDefinition (pkg : types.Package) (res : option error)
| REnsureDependencies (pkg : types.Package) (res : option error)
| RGet (url : string) (res : string * option error)
| RMkdirAll (p : string) (res : option error)
| RCreate (p : string) (res : option error)
| RCopy (file body : string) (res : option error)
| RClose (file : string) (res : option error)
| RCloseBody (url : string).

Section Rook.

Variable W : Type.

(** The environment: [util.Exists]; the visits of [filepath.Walk(root, fn)],
    each a path with the [IsDir()] of its [os.FileInfo] ([None]: a nil
    [FileInfo], given with an [lstat] error); [survey.Ask];
    [ioutil.WriteFile]; [pkg.WriteDefinition()]; [EnsureDependencies(&pkg)];
    [http.Get] (the response body, or the error); [os.MkdirAll];
    [os.Create] (the file is named by its path); [io.Copy(file, resp.Body)];
    [file.Close()] and [resp.Body.Close()].

    The walk function of [Init] never returns [filepath.SkipDir] and returns
    nil on directories, so the paths [Walk] visits, in its lexical order, do
    not depend on what the function returns; [Walk] stops at the first error
    the function returns and returns it. *)
Record REnv := mkREnv {
  renv_Exists : W -> string -> bool;
  renv_Walk : W -> string -> list (string * option bool);
  renv_Ask : W -> list Question -> W * (answers.t * option error);
  renv_WriteFile : W -> string -> string -> W * option error;
  renv_WriteDefinition : W -> types.Package -> W * option error;
  renv_EnsureDependencies : W -> types.Package -> W * option error;
  renv_Get : W -> string -> W * (string * option error);
  renv_MkdirAll : W -> string -> W * option error;
  renv_Create : W -> string -> W * option error;
  renv_Copy : W -> string -> string -> W * option error;
  renv_Close : W -> string -> W * option error;
  renv_CloseBody : W -> string -> W
}.

Variable renv : REnv.

Record RSt := mkRSt {
  rworld : W;
  rtrace : list REvent
}.

Definition rlog (w : W) (e : REvent) : M RSt unit :=
  fun s => Done (mkRSt w (rtrace s ++ [e])) tt.

Definition rworld_now : M RSt W := fun s => Done s (rworld s).

Definition skip : M RSt unit := ret tt.

Definition util_Exists (p : string) : M RSt bool :=
  w <- rworld_now ;;
  let b := renv_Exists renv w p in
  rlog w (RExists p b) ;;; ret b.

Definition filepath_Walk (root : string) : M RSt (list (string * option bool)) :=
  w <- rworld_now ;;
  let vs := renv_Walk renv w root in
  rlog w (RWalk root vs) ;;; ret vs.

Definition color_Green (msg : string) : M RSt unit := w <- rworld_now ;; rlog w (RGreen msg).
Definition color_Red (msg : string) : M RSt unit := w <- rworld_now ;; rlog w (RRed msg).
Definition print_Warn (msg : string) : M RSt unit := w <- rworld_now ;; rlog w (RWarn msg).
Definition print_Erro (e : error) : M RSt unit := w <- rworld_now ;; rlog w (RErro e).
Definition go_getTemplateFile (filename : string) : M RSt unit := w <- rworld_now ;; rlog w (RSpawn filename).
Definition wg_Wait : M RSt unit := w <- rworld_now ;; rlog w RWait.

Definition survey_Ask (qs : list Question) : M RSt (answers.t * option error) :=
  w <- rworld_now ;;
  let '(w', r) := renv_Ask renv w qs in
  rlog w' (RAsk qs r) ;;; ret r.

Definition ioutil_WriteFile (path content : string) : M RSt (option error) :=
  w <- rworld_now ;;
  let '(w', r) := renv_WriteFile renv w path content in
  rlog w' (RWriteFile path content r) ;;; ret r.

Definition WriteDefinition (pkg : types.Package) : M RSt (option error) :=
  w <- rworld_now ;;
  let '(w', r) := renv_WriteDefinition renv w pkg in
  rlog w' (RWriteDefinition pkg r) ;;; ret r.

Definition EnsureDependencies (pkg : types.Package) : M RSt (option error) :=
  w <- rworld_now ;;
  let '(w', r) := renv_EnsureDependencies renv w pkg in
  rlog w' (REnsureDependencies pkg r) ;;; ret r.

Definition http_Get (url : string) : M RSt (string * option error) :=
  w <- rworld_now ;;
  let '(w', r) := renv_Get renv w url in
  rlog w' (RGet url r) ;;; ret r.

Definition os_MkdirAll (p : string) : M RSt (option error) :=
  w <- rworld_now ;;
  let '(w', r) := renv_MkdirAll renv w p in
  rlog w' (RMkdirAll p r) ;;; ret r.

Definition os_Create (p : string) : M RSt (option error) :=
  w <- rworld_now ;;
  let '(w', r) := renv_Create renv w p in
  rlog w' (RCreate p r) ;;; ret r.

Definition io_Copy (file body : string) : M RSt (option error) :=
  w <- rworld_now ;;
  let '(w', r) := renv_Copy renv w file body in
  rlog w' (RCopy file body r) ;;; ret r.

Definition file_Close (file : string) : M RSt (option error) :=
  w <- rworld_now ;;
  let '(w', r) := renv_Close renv w file in
  rlog w' (RClose file r) ;;; ret r.

Definition body_Close (url : string) : M RSt unit :=
  w <- rworld_now ;;
  rlog (renv_CloseBody renv w url) (RCloseBody url).


(** [fmt.Sprintf("%d", n)]. *)
Definition itoa (n : nat) : string := NilEmpty.string_of_uint (Nat.to_uint n).

Definition dq : string := String (ascii_of_nat 34) EmptyString.
Definition nl : string := String (ascii_of_nat 10) EmptyString.
Definition tab : string := String (ascii_of_nat 9) EmptyString.

(** The walk function of [Init], over the visits of [filepath.Walk]:
    [pwnFiles] and [incFiles] as the closure leaves them, and the error
    [Walk] returns; [None]: [info.IsDir()] on a nil [FileInfo] panics. *)
Fixpoint walk_files (dir : string) (vs : list (string * option bool))
    (pwnFiles incFiles : list string) : option (list string * list string * option error) :=
  match vs with
  | [] => Some (pwnFiles, incFiles, None)
  | (path, info) :: rest =>
      match info with
      | None => None
      | Some true => walk_files dir rest pwnFiles incFiles
      | Some false =>
          let ext := UnixPath.Ext path in
          let '(rel, innerErr) := UnixPath.Rel dir path in
          match innerErr with
          | Some e => Some (pwnFiles, incFiles, Some e)
          | None =>
              if String.eqb ext ".pwn" then walk_files dir rest (pwnFiles ++ [rel]) incFiles
              else if String.eqb ext ".inc" then walk_files dir rest pwnFiles (incFiles ++ [rel])
              else walk_files dir rest pwnFiles incFiles
          end
      end
  end.

(** The [questions] of [Init]. *)
Definition init_questions (dirName : string) (pwnFiles incFiles : list string) : list Question :=
  [mkQuestion "Format" (PSelect "Preferred package format" ["json"; "yaml"]) true;
   mkQuestion "User"
     (PInput "Your Name - If you plan to release, must be your GitHub username." "") true;
   mkQuestion "Repo"
     (PInput "Package Name - If you plan to release, must be the GitHub project name." dirName) true;
   mkQuestion "GitIgnore" (PConfirm "Add a .gitignore file?" true) false;
   mkQuestion "Readme" (PConfirm "Add a README.md file?" true) false;
   mkQuestion "Editor" (PSelect "Select your text editor" ["none"; "vscode"]) true;
   mkQuestion "StdLib" (PConfirm "Add standard library dependency?" true) false] ++
  (if Nat.ltb 0 (length pwnFiles) then
     [mkQuestion "Entry"
        (PSelect "Choose an entry point - this is the file that is passed to the compiler." pwnFiles)
        true]
   else if Nat.ltb 0 (length incFiles) then
     [mkQuestion "EntryGenerate"
        (PMultiSelect "No .pwn found but .inc found - create .pwn file that includes .inc?" incFiles)
        true]
   else
     [mkQuestion "Entry" (PInput "No .pwn or .inc files - enter name for new script" "test.pwn") false]).

(** [nameOnly + ".pwn"] and [nameOnly + ".amx"], with [ext] the extension of
    the entry answer and [nameOnly] the answer without it. *)
Definition entry_names (entry : string) : string * string :=
  let ext := UnixPath.Ext entry in
  let nameOnly := Strings.TrimSuffix entry ext in
  (nameOnly ++ ".pwn", nameOnly ++ ".amx").

(** The content of the generated [test.pwn]. *)
Definition generated_test (incs : list string) : string :=
  "// generated by " ++ dq ++ "sampctl package generate" ++ dq ++ nl ++ nl ++
  String.concat "" (map (fun inc => "#include " ++ dq ++ UnixPath.Base inc ++ dq ++ nl) incs) ++
  nl ++ "main() {" ++ nl ++
  tab ++ "// write tests for libraries here and run " ++ dq ++ "sampctl package run" ++ dq ++
  nl ++ "}" ++ nl.

Definition with_entry (pkg : types.Package) (entry output : string) : types.Package :=
  types.mkPackage (types.Parent pkg) (types.Local pkg) (types.Format pkg) (types.User pkg)
    (types.Repo pkg) entry output (types.Dependencies pkg).

Definition with_dependencies (pkg : types.Package) (deps : list string) : types.Package :=
  types.mkPackage (types.Parent pkg) (types.Local pkg) (types.Format pkg) (types.User pkg)
    (types.Repo pkg) (types.Entry pkg) (types.Output pkg) deps.

(** The [if answers.Entry != "" { ... } else { ... }] block of [Init]. *)
Definition set_entry (dir : string) (a : answers.t) (pkg : types.Package) : M RSt types.Package :=
  if negb (String.eqb (answers.Entry a) "") then
    let ext := UnixPath.Ext (answers.Entry a) in
    let '(entry, output) := entry_names (answers.Entry a) in
    (if negb (String.eqb ext "") && negb (String.eqb ext ".pwn") then
       print_Warn "Entry point is not a .pwn file - it's advised to use a .pwn file as the compiled script." ;;;
       print_Warn "If you are writing a library and not a gamemode or filterscript," ;;;
       print_Warn "it's good to make a separate .pwn file that #includes the .inc file of your library."
     else skip) ;;;
    ret (with_entry pkg entry output)
  else
    (if Nat.ltb 0 (length (answers.EntryGenerate a)) then
       err <- ioutil_WriteFile (UnixPath.Join dir "test.pwn") (generated_test (answers.EntryGenerate a)) ;;
       match err with
       | Some e => color_Red ("failed to write generated tests.pwn file: " ++ error_message e)
       | None => skip
       end
     else skip) ;;;
    ret (with_entry pkg "test.pwn" "test.amx").

(** The part of [Init] after [survey.Ask] succeeded. *)
Definition init_after_survey (dir : string) (a : answers.t) : M RSt (option error) :=
  let pkg := types.mkPackage true dir (answers.Format a) (answers.User a)
               (answers.Repo a) "" "" [] in
  pkg <- set_entry dir a pkg ;;
  (if answers.GitIgnore a then go_getTemplateFile ".gitignore" else skip) ;;;
  (if answers.Readme a then go_getTemplateFile "README.md" else skip) ;;;
  (if String.eqb (answers.Editor a) "vscode" then go_getTemplateFile ".vscode/tasks.json"
   else skip) ;;;
  let pkg := if answers.StdLib a
             then with_dependencies pkg (types.Dependencies pkg ++ ["sampctl/samp-stdlib"])
             else pkg in
  err <- WriteDefinition pkg ;;
  (match err with Some e => print_Erro e | None => skip end) ;;;
  wg_Wait ;;;
  EnsureDependencies pkg.

(** [Init(dir) (err error)]. *)
Definition Init (dir : string) : M RSt (option error) :=
  let dirName := UnixPath.Base dir in
  ok <- util_Exists dir ;;
  if negb ok then ret (Some (Errorf "directory does not exist")) else
  vs <- filepath_Walk dir ;;
  match walk_files dir vs [] [] with
  | None => go_panic "invalid memory address or nil pointer dereference"
  | Some (_, _, Some e) => ret (Some e)
  | Some (pwnFiles, incFiles, None) =>
      color_Green ("Found " ++ itoa (length pwnFiles) ++ " pwn files and " ++
                   itoa (length incFiles) ++ " inc files.") ;;;
      r <- survey_Ask (init_questions dirName pwnFiles incFiles) ;;
      let '(a, err) := r in
      match err with
      | Some e => ret (Some e)
      | None => init_after_survey dir a
      end
  end.

Definition template_url (filename : string) : string :=
  "https://raw.githubusercontent.com/Southclaws/pawn-package-template/master/" ++ filename.

(** [getTemplateFile(dir, filename) (err error)].  The deferred
    [resp.Body.Close()] and [file.Close()] run when the function returns,
    the latter first; the deferred function assigns [file.Close()]'s result
    to the named result [err]. *)
Definition getTemplateFile (dir filename : string) : M RSt (option error) :=
  r <- http_Get (template_url filename) ;;
  let '(body, err) := r in
  match err with
  | Some e => ret (Some e)
  | None =>
      let outputFile := UnixPath.Join dir filename in
      ex <- util_Exists outputFile ;;
      let outputFile := if ex then "init-" ++ outputFile else outputFile in
      err <- os_MkdirAll (UnixPath.Dir outputFile) ;;
      match err with
      | Some e => body_Close (template_url filename) ;;; ret (Some e)
      | None =>
          err <- os_Create outputFile ;;
          match err with
          | Some e => body_Close (template_url filename) ;;; ret (Some e)
          | None =>
              (* [_, err = io.Copy(file, resp.Body)]: both branches return *)
              _ <- io_Copy outputFile body ;;
              err <- file_Close outputFile ;;
              (match err with Some e => print_Erro e | None => skip end) ;;;
              body_Close (template_url filename) ;;;
              ret err
          end
      end
  end.

End Rook.

Arguments mkRSt {W}.
Arguments rworld {W}.
Arguments rtrace {W}.
Arguments renv_Exists {W}. Arguments renv_Walk {W}. Arguments renv_Ask {W}.
Arguments renv_WriteFile {W}. Arguments renv_WriteDefinition {W}.
Arguments renv_EnsureDependencies {W}. Arguments renv_Get {W}. Arguments renv_MkdirAll {W}.
Arguments renv_Create {W}. Arguments renv_Copy {W}. Arguments renv_Close {W}.
Arguments renv_CloseBody {W}.

(** ** What [Init] does after the survey, as functions of the answers *)

(** The package [Init] writes and passes to [EnsureDependencies]. *)
Definition init_package (dir : string) (a : answers.t) : types.Package :=
  let '(entry, output) :=
    if negb (String.eqb (answers.Entry a) "") then entry_names (answers.Entry a)
    else ("test.pwn", "test.amx") in
  types.mkPackage true dir (answers.Format a) (answers.User a) (answers.Repo a) entry output
    (if answers.StdLib a then ["sampctl/samp-stdlib"] else []).

Definition entry_warnings : list REvent :=
  [RWarn "Entry point is not a .pwn file - it's advised to use a .pwn file as the compiled script.";
   RWarn "If you are writing a library and not a gamemode or filterscript,";
   RWarn "it's good to make a separate .pwn file that #includes the .inc file of your library."].

(** The calls of the entry block, [rf] being the result of writing
    [test.pwn]. *)
Definition entry_trace (dir : string) (a : answers.t) (rf : option error) : list REvent :=
  if negb (String.eqb (answers.Entry a) "") then
    let ext := UnixPath.Ext (answers.Entry a) in
    if negb (String.eqb ext "") && negb (String.eqb ext ".pwn") then entry_warnings else []
  else if Nat.ltb 0 (length (answers.EntryGenerate a)) then
    RWriteFile (UnixPath.Join dir "test.pwn") (generated_test (answers.EntryGenerate a)) rf ::
    match rf with
    | Some e => [RRed ("failed to write generated tests.pwn file: " ++ error_message e)]
    | None => []
    end
  else [].

Definition spawn_trace (a : answers.t) : list REvent :=
  (if answers.GitIgnore a then [RSpawn ".gitignore"] else []) ++
  (if answers.Readme a then [RSpawn "README.md"] else []) ++
  (if String.eqb (answers.Editor a) "vscode" then [RSpawn ".vscode/tasks.json"] else []).

Definition erro_trace (r : option error) : list REvent :=
  match r with Some e => [RErro e] | None => [] end.

(** The template files whose fetch a trace starts, the files it writes
    with [ioutil.WriteFile], and its warnings. *)
Definition spawned (t : list REvent) : list string :=
  flat_map (fun e => match e with RSpawn f => [f] | _ => [] end) t.

Definition written (t : list REvent) : list (string * string) :=
  flat_map (fun e => match e with RWriteFile p c _ => [(p, c)] | _ => [] end) t.

Definition warnings (t : list REvent) : list string :=
  flat_map (fun e => match e with RWarn m => [m] | _ => [] end) t.

(** A visit the walk function of [Init] passes: a directory, or a file
    whose path [filepath.Rel] makes relative to the root. *)
Definition good_visit (dir : string) (v : string * option bool) : bool :=
  match v with
  | (_, Some true) => true
  | (p, Some false) => match snd (UnixPath.Rel dir p) with None => true | Some _ => false end
  | (_, None) => false
  end.

(** The relative paths of the visited files with extension [e], in walk
    order. *)
Definition walk_rels (dir : string) (vs : list (string * option bool)) (e : string) : list string :=
  flat_map (fun v => match v with
                     | (p, Some false) =>
                         if String.eqb (UnixPath.Ext p) e then [fst (UnixPath.Rel dir p)] else []
                     | _ => []
                     end) vs.

Definition found_message (pwnFiles incFiles : list string) : string :=
  "Found " ++ itoa (length pwnFiles) ++ " pwn files and " ++ itoa (length incFiles) ++ " inc files.".

(** An environment answering every call with fixed results, over a
    world with nothing in it. *)
Definition fixed_renv (ex : string -> bool) (vs : list (string * option bool))
    (ans : answers.t * option error) (wf wd ed : option error) (get : string * option error)
    (mk cr cp cl : option error) : REnv unit :=
  mkREnv unit (fun _ p => ex p) (fun _ _ => vs) (fun w _ => (w, ans)) (fun w _ _ => (w, wf))
    (fun w _ => (w, wd)) (fun w _ => (w, ed)) (fun w _ => (w, get)) (fun w _ => (w, mk))
    (fun w _ => (w, cr)) (fun w _ _ => (w, cp)) (fun w _ => (w, cl)) (fun w _ => w).

Definition sample_answers : answers.t :=
  answers.mk "json" "Southclaws" "pkg" true true "vscode" true [] "gamemode.p".

Definition sample_visits : list (string * option bool) :=
  [("/home/u/pkg", Some true); ("/home/u/pkg/gamemode.pwn", Some false);
   ("/home/u/pkg/inc", Some true); ("/home/u/pkg/inc/lib.inc", Some false);
   ("/home/u/pkg/notes.txt", Some false)].

Definition sample_init_env (ans : answers.t * option error) : REnv unit :=
  fixed_renv (fun p => String.eqb p "/home/u/pkg") sample_visits ans None None None
    ("", None) None None None None.

Definition sample_get_env (get : string * option error) (mk cr cp cl : option error) : REnv unit :=
  fixed_renv (fun p => String.eqb p "/home/u/pkg/README.md") [] (sample_answers, None)
    None None None get mk cr cp cl.

(** The paths a trace passes to [os.Create]. *)
Definition created (t : list REvent) : list string :=
  flat_map (fun e => match e with RCreate p _ => [p] | _ => [] end) t.




(** Environments whose install directory, cache directory or archive is
    unusable. *)
Definition env_readonly_dir : Env unit :=
  mkEnv (fun w => (w, (cache_root, None)))
        (fun _ _ => false)
        (fun w p => (w, Some (Errorf ("mkdir " ++ p ++ ": permission denied"))))
        (fun w _ _ _ _ _ => (w, (false, None)))
        (fun w _ c f => (w, (c ++ "/" ++ f, None)))
        (fun w _ _ _ _ => (w, None)).

Definition env_readonly_cache : Env unit :=
  mkEnv (fun w => (w, (cache_root, None)))
        (fun _ p => String.eqb p "/d")
        (fun w p => (w, Some (Errorf ("mkdir " ++ p ++ ": permission denied"))))
        (fun w _ _ _ _ _ => (w, (false, None)))
        (fun w _ c f => (w, (c ++ "/" ++ f, None)))
        (fun w _ _ _ _ => (w, None)).

Definition env_bad_archive : Env unit :=
  mkEnv (fun w => (w, (cache_root, None)))
        (fun _ _ => true)
        (fun w _ => (w, None))
        (fun w _ _ _ _ _ => (w, (false, None)))
        (fun w _ c f => (w, (c ++ "/" ++ f, None)))
        (fun w _ _ _ _ => (w, Some (Errorf "gzip: invalid header"))).

Definition linux_paths_3_10_10 : gomap :=
  [("pawnc-3.10.10-linux/bin/pawncc", "pawncc"); ("pawnc-3.10.10-linux/lib/libpawnc.so", "libpawnc.so")].

Definition linux_pkg_3_10_10 : CompilerPackage :=
  mkCompilerPackage "https://github.com/Zeex/pawn/releases/download/v3.10.10/pawnc-3.10.10-linux.tar.gz"
    (Some Untar) (Some 4%positive).

(** * Proofs *)

(** Replace every local definition of the context by its body. *)
Ltac subst_lets :=
  repeat match goal with x := _ |- _ => subst x end.

(** Case analysis on every answer of the environment in the goal. *)
Ltac destruct_env_calls :=
  repeat (match goal with
    | |- context [env_exists ?env ?w ?p] => destruct (env_exists env w p)
    | |- context [env_MkdirAll ?env ?w ?p] => destruct (env_MkdirAll env w p) as [? [?|]]
    | |- context [env_FromNet ?env ?w ?u ?c ?f] => destruct (env_FromNet env w u c f) as [? [? [?|]]]
    | |- context [Method ?pkg] => destruct (Method pkg) eqn:?
    | |- context [env_Extract ?env ?w ?m ?p ?d ?ps] => destruct (env_Extract env w m p d ps) as [? [?|]]
    end; simpl).

Section Proofs.

Variable World : Type.
Variable GOOS : string.
Variable env : Env World.

Implicit Types (s : St World) (version dir cacheDir : string).

Lemma bind_Done {A B} (m : M (St World) A) (k : A -> M (St World) B) s s' a :
  m s = Done s' a -> bind m k s = k a s'.
Proof. intros H. unfold bind. now rewrite H. Qed.

Lemma bind_Panicked {A B} (m : M (St World) A) (k : A -> M (St World) B) s s' msg :
  m s = Panicked s' msg -> bind m k s = Panicked s' msg.
Proof. intros H. unfold bind. now rewrite H. Qed.

Lemma resolve_Some tmpl version out s :
  Template.resolve_str tmpl version = Some out -> resolve World tmpl version s = Done s out.
Proof.
  unfold resolve, Template.resolve_str. destruct (Template.Parse tmpl); [|discriminate].
  now intros ->.
Qed.

Lemma resolve_None tmpl version s :
  Template.resolve_str tmpl version = None -> exists msg, resolve World tmpl version s = Panicked s msg.
Proof.
  unfold resolve, Template.resolve_str. destruct (Template.Parse tmpl); [|eauto].
  intros ->. eauto.
Qed.

(** The monadic loop computes the pure [resolve_entries]. *)
Lemma resolve_paths_Some entries version l s acc res :
  heap s !! l = Some acc ->
  resolve_entries entries version acc = Some res ->
  resolve_paths World entries version l s =
    Done (mkSt (world s) (trace s) (<[l := res]> (heap s)) (next s) (globals s)) tt.
Proof.
  revert s acc. induction entries as [|[src tgt] rest IH]; intros s acc Hl Hres; simpl in Hres.
  - injection Hres as <-. simpl. unfold ret. destruct s as [w t h n g]; simpl in *.
    f_equal. f_equal. apply map_eq. intros i. destruct (decide (i = l)) as [->|Hne].
    + now rewrite lookup_insert_eq.
    + now rewrite lookup_insert_ne by congruence.
  - destruct (Template.resolve_str src version) as [s'|] eqn:Es; [|discriminate].
    destruct (Template.resolve_str tgt version) as [t'|] eqn:Et; [|discriminate].
    simpl. rewrite (bind_Done _ _ _ _ _ (resolve_Some _ _ _ s Es)).
    rewrite (bind_Done _ _ _ _ _ (resolve_Some _ _ _ s Et)).
    unfold bind at 1, map_store. simpl. rewrite Hl. simpl.
    rewrite (IH _ (gomap_insert s' t' acc)); simpl; auto.
    + now rewrite insert_insert_eq.
    + now rewrite lookup_insert_eq.
Qed.

Lemma map_store_eq l k v s :
  map_store World l k v s =
    Done (mkSt (world s) (trace s) (<[l := gomap_insert k v (default [] (heap s !! l))]> (heap s))
               (next s) (globals s)) tt.
Proof. reflexivity. Qed.

(** Whatever the loop does, it writes only to the map [l] and makes no call. *)
Lemma resolve_paths_frame entries version l s :
  let s' := out_state (resolve_paths World entries version l s) in
  world s' = world s /\ trace s' = trace s /\ globals s' = globals s /\ next s' = next s /\
  forall l', l' <> l -> heap s' !! l' = heap s !! l'.
Proof.
  cbv zeta. revert s. induction entries as [|[src tgt] rest IH]; intros s; simpl.
  - unfold ret. simpl. auto.
  - destruct (Template.resolve_str src version) eqn:Es.
    2:{ destruct (resolve_None _ _ s Es) as [msg Hm].
        rewrite (bind_Panicked _ _ _ _ _ Hm). simpl. auto. }
    rewrite (bind_Done _ _ _ _ _ (resolve_Some _ _ _ s Es)).
    destruct (Template.resolve_str tgt version) eqn:Et.
    2:{ destruct (resolve_None _ _ s Et) as [msg Hm].
        rewrite (bind_Panicked _ _ _ _ _ Hm). simpl. auto. }
    rewrite (bind_Done _ _ _ _ _ (resolve_Some _ _ _ s Et)).
    rewrite (bind_Done _ _ _ _ _ (map_store_eq l s0 s1 s)).
    destruct (IH (mkSt (world s) (trace s)
               (<[l:=gomap_insert s0 s1 (default [] (heap s !! l))]> (heap s))
               (next s) (globals s))) as (H1 & H2 & H3 & H4 & H5).
    simpl in *. repeat split; try congruence.
    intros l' Hne. rewrite H5 by auto. now rewrite lookup_insert_ne by congruence.
Qed.

Lemma init_catalog_ok (w : World) : catalog_ok (init_st w).
Proof. repeat split; reflexivity. Qed.

Lemma select_catalog os pkg :
  select os catalog_init = Some pkg ->
  pkg = pawnMacOS catalog_init \/ pkg = pawnLinux catalog_init \/ pkg = pawnWin32 catalog_init.
Proof.
  unfold select. destruct (String.eqb os "windows"); [intros H; injection H as <-; auto|].
  destruct (String.eqb os "linux"); [intros H; injection H as <-; auto|].
  destruct (String.eqb os "darwin"); [intros H; injection H as <-; auto|discriminate].
Qed.

(** [GetCompilerPackageInfo] on the initialized catalog, for a supported OS
    whose templates resolve. *)
Lemma info_catalog s os version pkg u ps :
  catalog_ok s ->
  select os catalog_init = Some pkg ->
  Template.resolve_str (URL pkg) version = Some u ->
  resolve_entries (catalog_entries pkg) version [] = Some ps ->
  GetCompilerPackageInfo World GOOS os version s =
    Done (mkSt (world s) (trace s) (<[next s := ps]> (heap s)) (Pos.succ (next s)) (globals s))
         (mkCompilerPackage u (Method pkg) (Some (next s)),
          fst (parse_filename GOOS u), snd (parse_filename GOOS u)).
Proof.
  intros (Hg & H1 & H2 & H3 & Hn) Hsel Hu Hps.
  unfold GetCompilerPackageInfo.
  rewrite (bind_Done _ _ s s (globals s) eq_refl), Hg, Hsel.
  rewrite (bind_Done _ _ _ _ _ (resolve_Some _ _ _ s Hu)).
  unfold bind at 1. cbn [make_map].
  set (s1 := mkSt (world s) (trace s) (<[next s := []]> (heap s)) (Pos.succ (next s)) (globals s)).
  assert (Hread : map_read World (Paths pkg) s1 = Done s1 (catalog_entries pkg)).
  { unfold map_read, catalog_entries. subst s1; simpl.
    destruct (select_catalog _ _ Hsel) as [ -> | [ -> | -> ] ]; simpl;
      rewrite lookup_insert_ne by (intros E; rewrite E in Hn; lia);
      [rewrite H1|rewrite H2|rewrite H3]; reflexivity. }
  rewrite (bind_Done _ _ _ _ _ Hread).
  rewrite (bind_Done _ _ _ _ _ (resolve_paths_Some _ _ _ s1 [] _ (lookup_insert_eq _ _ _) Hps)).
  subst s1; simpl. rewrite insert_insert_eq.
  unfold parse_filename. destruct (URL.Parse u); unfold ret; now rewrite Hg.
Qed.

Lemma append_eqb_l (x a b : string) : String.eqb (x ++ a) (x ++ b) = String.eqb a b.
Proof.
  induction x as [|c x IH]; simpl; auto.
  now rewrite Ascii.eqb_refl.
Qed.

Lemma resolve_entries_two a1 b1 a2 b2 ra1 rb1 ra2 rb2 version :
  Template.resolve_str a1 version = Some ra1 -> Template.resolve_str b1 version = Some rb1 ->
  Template.resolve_str a2 version = Some ra2 -> Template.resolve_str b2 version = Some rb2 ->
  String.eqb ra2 ra1 = false ->
  resolve_entries [(a1, b1); (a2, b2)] version [] = Some [(ra1, rb1); (ra2, rb2)].
Proof.
  intros H1 H2 H3 H4 H5. simpl. rewrite H1, H2, H3, H4. simpl. now rewrite H5.
Qed.

Lemma pawn_member_eqb osname p1 p2 version :
  String.eqb (pawn_member osname p1 version) (pawn_member osname p2 version) = String.eqb p1 p2.
Proof. unfold pawn_member. now rewrite !append_eqb_l. Qed.

(** Every catalog entry resolves, for every version. *)
Lemma catalog_resolves os pkg version :
  select os catalog_init = Some pkg ->
  exists osname ext p1 t1 p2 t2,
    In (osname, ext, p1, t1, p2, t2) catalog_rows /\
    Template.resolve_str (URL pkg) version = Some (pawn_url osname ext version) /\
    resolve_entries (catalog_entries pkg) version [] =
      Some [(pawn_member osname p1 version, t1); (pawn_member osname p2 version, t2)].
Proof.
  intros Hsel. destruct (select_catalog _ _ Hsel) as [ -> | [ -> | -> ] ].
  - exists "darwin", ".zip", "bin/pawncc", "pawncc", "lib/libpawnc.dylib", "libpawnc.dylib".
    split; [simpl; auto|split; [reflexivity|]].
    apply resolve_entries_two; try reflexivity. now rewrite pawn_member_eqb.
  - exists "linux", ".tar.gz", "bin/pawncc", "pawncc", "lib/libpawnc.so", "libpawnc.so".
    split; [simpl; auto|split; [reflexivity|]].
    apply resolve_entries_two; try reflexivity. now rewrite pawn_member_eqb.
  - exists "windows", ".zip", "bin/pawncc.exe", "pawncc.exe", "bin/pawnc.dll", "pawnc.dll".
    split; [simpl; auto|split; [reflexivity|]].
    apply resolve_entries_two; try reflexivity. now rewrite pawn_member_eqb.
Qed.

Lemma out_state_bind_ret {A B} (m : M (St World) A) (k : A -> M (St World) B) s :
  (forall a s', out_state (k a s') = s') -> out_state (bind m k s) = out_state (m s).
Proof. intros H. unfold bind. destruct (m s); simpl; auto. Qed.

Lemma print_then {A} msg (m : M (St World) A) s :
  (Printf World msg ;;; m) s =
    m (mkSt (world s) (trace s ++ [EvPrint msg]) (heap s) (next s) (globals s)).
Proof. reflexivity. Qed.

Lemma info_unsupported s os version :
  select os (globals s) = None ->
  GetCompilerPackageInfo World GOOS os version s =
    Done s (zero_CompilerPackage, "", Some (Errorf ("unsupported OS " ++ GOOS))).
Proof. intros H. unfold GetCompilerPackageInfo, bind at 1, get_globals. now rewrite H. Qed.

(** [GetCompilerPackageInfo] makes no call into the environment and leaves
    the package-level variables alone, whether it returns or panics. *)
Lemma info_no_io s os version :
  let s' := out_state (GetCompilerPackageInfo World GOOS os version s) in
  world s' = world s /\ trace s' = trace s /\ globals s' = globals s /\
  (heap_wf s -> forall l m, heap s !! l = Some m -> heap s' !! l = Some m).
Proof.
  cbv zeta. unfold GetCompilerPackageInfo.
  rewrite (bind_Done _ _ s s (globals s) eq_refl).
  destruct (select os (globals s)) as [pkg|]; [|simpl; auto].
  destruct (Template.resolve_str (URL pkg) version) as [u|] eqn:Eu.
  2:{ destruct (resolve_None _ _ s Eu) as [msg Hm]. rewrite (bind_Panicked _ _ _ _ _ Hm).
      simpl; auto. }
  rewrite (bind_Done _ _ _ _ _ (resolve_Some _ _ _ s Eu)).
  set (s1 := mkSt (world s) (trace s) (<[next s := []]> (heap s)) (Pos.succ (next s)) (globals s)).
  rewrite (bind_Done _ _ s s1 (next s) eq_refl).
  rewrite (bind_Done (map_read World (Paths pkg)) _ s1 s1 _ eq_refl).
  rewrite out_state_bind_ret by (intros; destruct (URL.Parse u); reflexivity).
  match goal with
  | |- context [out_state (resolve_paths World ?e ?v ?l s1)] =>
      destruct (resolve_paths_frame e v l s1) as (H1 & H2 & H3 & H4 & H5)
  end.
  simpl in *; repeat split; try congruence;
  intros Hwf l m Hl; rewrite H5; subst s1; simpl;
  try (rewrite lookup_insert_ne; [exact Hl|]);
  try (intros E; assert (Hlt : (l < next s)%positive) by (apply Hwf; rewrite Hl; eauto);
       rewrite E in Hlt; lia).
Qed.

(** [CompilerFromCache] unfolded: the descriptor, then one [FromCache] call. *)
Lemma CompilerFromCache_eq cacheDir version dir s :
  CompilerFromCache World GOOS env cacheDir version dir s =
  match GetCompilerPackageInfo World GOOS GOOS version s with
  | Panicked s' msg => Panicked s' msg
  | Done s1 (pkg, filename, Some e) => Done s1 (false, Some e)
  | Done s1 (pkg, filename, None) =>
      let paths : gomap := match Paths pkg with Some l => default [] (heap s1 !! l) | None => [] end in
      let '(w', r) := env_FromCache env (world s1) cacheDir filename dir (Method pkg) paths in
      Done (mkSt w' (trace s1 ++ [EvFromCache cacheDir filename dir (Method pkg) paths r])
                 (heap s1) (next s1) (globals s1))
           (if negb (fst r) then (false, None) else r)
  end.
Proof.
  unfold CompilerFromCache, bind at 1.
  destruct (GetCompilerPackageInfo World GOOS GOOS version s) as [s1 [[pkg fn] [e|]]|]; auto.
  unfold FromCache, map_read, cur_world, log_call, ret, bind. cbv beta iota zeta.
  destruct (env_FromCache _ _ _ _ _ _ _) as [w' [[|] r]]; reflexivity.
Qed.

(** The calls the cache stage adds to the trace: at most one, a [FromCache]. *)
Lemma CompilerFromCache_trace cacheDir version dir s :
  exists new, trace (out_state (CompilerFromCache World GOOS env cacheDir version dir s)) =
              (trace s ++ new)%list /\ forallb is_FromCache new = true /\ length new <= 1.
Proof.
  rewrite CompilerFromCache_eq.
  destruct (info_no_io s GOOS version) as (_ & Ht & _).
  destruct (GetCompilerPackageInfo World GOOS GOOS version s) as [s1 [[pkg fn] [e|]]|s1 msg];
    simpl in *.
  - exists []. rewrite app_nil_r. auto.
  - destruct (env_FromCache _ _ _ _ _ _ _) as [w' r]. simpl.
    eexists. split; [rewrite Ht; reflexivity|]. simpl. auto.
  - exists []. rewrite app_nil_r. auto.
Qed.

Lemma GetCompilerPackage_after_cache_dir version dir s s1 cacheDir :
  (Printf World "Downloading compiler package" ;;; GetCacheDir World env) s = Done s1 (cacheDir, None) ->
  GetCompilerPackage World GOOS env version dir s =
  bind (CompilerFromCache World GOOS env cacheDir version dir)
    (fun r => let '(hit, err) := r in
      match err with
      | Some e => ret (Some (Wrap e ("failed to get package " ++ version ++ " from cache")))
      | None =>
          if hit then ret None else
          err <- CompilerFromNet World GOOS env cacheDir version dir ;;
          match err with
          | Some e => ret (Some (Wrap e ("failed to get package " ++ version ++ " from net")))
          | None => ret None
          end
      end) s1.
Proof.
  intros H. rewrite print_then in H. unfold GetCompilerPackage. rewrite print_then.
  rewrite (bind_Done _ _ _ _ _ H). reflexivity.
Qed.

(** A clean hit of the cache stage ends [GetCompilerPackage] in the state the
    cache stage left, with no further call. *)
Lemma cache_hit_returns version dir s s1 cacheDir s2 :
  (Printf World "Downloading compiler package" ;;; GetCacheDir World env) s = Done s1 (cacheDir, None) ->
  CompilerFromCache World GOOS env cacheDir version dir s1 = Done s2 (true, None) ->
  GetCompilerPackage World GOOS env version dir s = Done s2 None.
Proof.
  intros H1 H2. rewrite (GetCompilerPackage_after_cache_dir _ _ _ _ _ H1).
  now rewrite (bind_Done _ _ _ _ _ H2).
Qed.

(** ** C2 *)

(** C2: whatever error accompanies a miss of the cache lookup,
    [CompilerFromCache] returns [(false, nil)], and [GetCompilerPackage] then
    continues with the network stage, whose result it returns (wrapped when
    it is an error). *)
Theorem CompilerFromCache_miss_falls_through :
  (forall cacheDir version dir s s' hit err c f d m p e,
     CompilerFromCache World GOOS env cacheDir version dir s = Done s' (hit, err) ->
     trace s' = (trace s ++ [EvFromCache c f d m p (false, e)])%list ->
     (hit, err) = (false, None)) /\
  (forall version dir s s1 cacheDir s2,
     (Printf World "Downloading compiler package" ;;; GetCacheDir World env) s = Done s1 (cacheDir, None) ->
     CompilerFromCache World GOOS env cacheDir version dir s1 = Done s2 (false, None) ->
     GetCompilerPackage World GOOS env version dir s =
       (err <- CompilerFromNet World GOOS env cacheDir version dir ;;
        ret (option_map (fun e => Wrap e ("failed to get package " ++ version ++ " from net")) err)) s2).
Proof.
  split.
  - intros cacheDir version dir s s' hit err c f d m p e Hrun Htr.
    rewrite CompilerFromCache_eq in Hrun.
    destruct (info_no_io s GOOS version) as (_ & Ht & _).
    destruct (GetCompilerPackageInfo World GOOS GOOS version s) as [s1 [[pkg fn] [e'|]]|];
      simpl in *; try discriminate.
    + injection Hrun as <- _ _. rewrite Ht in Htr.
      apply (f_equal (@length Event)) in Htr. rewrite length_app in Htr. simpl in Htr. lia.
    + destruct (env_FromCache _ _ _ _ _ _ _) as [w' r]. injection Hrun as <- Hr.
      simpl in Htr. rewrite Ht in Htr. apply app_inj_tail in Htr as [_ Hev].
      injection Hev as _ _ _ _ _ ->. simpl in Hr. now rewrite <- Hr.
  - intros version dir s s1 cacheDir s2 H1 H2.
    rewrite (GetCompilerPackage_after_cache_dir _ _ _ _ _ H1), (bind_Done _ _ _ _ _ H2).
    simpl. unfold bind. destruct (CompilerFromNet _ _ _ _ _ _ _) as [s3 [e|]|]; reflexivity.
Qed.

(** ** C10 *)

(** C10: a hit that comes with an error is a failure of [GetCompilerPackage]:
    it returns the wrapped cache error, in the state the cache stage left. *)
Theorem GetCompilerPackage_cache_error_wins version dir s s1 cacheDir s2 e :
  (Printf World "Downloading compiler package" ;;; GetCacheDir World env) s = Done s1 (cacheDir, None) ->
  CompilerFromCache World GOOS env cacheDir version dir s1 = Done s2 (true, Some e) ->
  GetCompilerPackage World GOOS env version dir s =
    Done s2 (Some (Wrap e ("failed to get package " ++ version ++ " from cache"))).
Proof.
  intros H1 H2. rewrite (GetCompilerPackage_after_cache_dir _ _ _ _ _ H1).
  now rewrite (bind_Done _ _ _ _ _ H2).
Qed.

(** ** C4 *)

(** C4: on a platform outside darwin, linux and windows, [GetCompilerPackage]
    makes no call but [GetCacheDir]: no existence check, no directory
    creation, no cache lookup, no download, no extraction. When the cache
    directory is found, it fails with the wrapped error naming the platform;
    when it is not, it fails with the [GetCacheDir] error. *)
Theorem GetCompilerPackage_unsupported_os version dir s :
  String.eqb GOOS "darwin" = false -> String.eqb GOOS "linux" = false ->
  String.eqb GOOS "windows" = false ->
  globals s = catalog_init ->
  let '(w', r) := env_GetCacheDir env (world s) in
  GetCompilerPackage World GOOS env version dir s =
    Done (mkSt w' ((trace s ++ [EvPrint "Downloading compiler package"]) ++ [EvGetCacheDir r])
               (heap s) (next s) (globals s))
         (match snd r with
          | Some e => Some e
          | None => Some (Wrap (Errorf ("unsupported OS " ++ GOOS))
                               ("failed to get package " ++ version ++ " from cache"))
          end).
Proof.
  intros Hd Hl Hw Hg.
  assert (Hsel : forall s', globals s' = catalog_init -> select GOOS (globals s') = None).
  { intros s' Hg'. rewrite Hg'. unfold select. now rewrite Hd, Hl, Hw. }
  destruct (env_GetCacheDir env (world s)) as [w' [cd [e|]]] eqn:Hc.
  - unfold GetCompilerPackage, Printf, GetCacheDir, cur_world, log_call, ret, bind. simpl.
    now rewrite Hc.
  - unfold GetCompilerPackage. rewrite print_then.
    unfold GetCacheDir at 1, cur_world, log_call, bind at 1 2. simpl. rewrite Hc.
    unfold bind at 1 2, ret at 1. simpl.
    rewrite CompilerFromCache_eq, info_unsupported by (apply Hsel; simpl; exact Hg).
    reflexivity.
Qed.

Lemma ensured_before_mono p t b1 b2 l :
  (b1 = true -> b2 = true) -> ensured_before p t b1 l = true -> ensured_before p t b2 l = true.
Proof.
  revert b1 b2. induction l as [|e l IH]; intros b1 b2 Hb H; simpl in *; auto.
  apply andb_true_iff in H as [H1 H2]. apply andb_true_iff. split.
  - destruct (t e); auto.
  - apply (IH (b1 || ensures_dir p e)); auto.
    destruct b1, b2, (ensures_dir p e); simpl; auto.
Qed.

Lemma ensured_before_app_free p t b l1 l2 :
  forallb (fun x => negb (t x)) l1 = true -> ensured_before p t false l2 = true ->
  ensured_before p t b (l1 ++ l2) = true.
Proof.
  revert b. induction l1 as [|e l1 IH]; intros b H1 H2; simpl in *.
  - apply (ensured_before_mono _ _ false); auto. discriminate.
  - apply andb_true_iff in H1 as [He Hr]. destruct (t e); [discriminate|]. simpl. auto.
Qed.

(** Whether the descriptor resolves or not, the network stage ensures the
    install directory and the cache directory before every fetch, and makes
    no cache lookup. *)
Lemma CompilerFromNet_trace cacheDir version dir s :
  exists new, trace (out_state (CompilerFromNet World GOOS env cacheDir version dir s)) =
                (trace s ++ new)%list /\
    ensured_before dir is_FromNet false new = true /\
    ensured_before cacheDir is_FromNet false new = true /\
    forallb (fun x => negb (is_FromCache x)) new = true.
Proof.
  destruct (info_no_io s GOOS version) as (_ & Ht & _).
  unfold CompilerFromNet.
  destruct (GetCompilerPackageInfo World GOOS GOOS version s) as [s1 [[pkg fn] [e|]]|s1 msg] eqn:Hinfo;
    simpl in Ht.
  - erewrite bind_Done; [|exact Hinfo]. exists []. simpl. rewrite Ht, app_nil_r. auto.
  - erewrite bind_Done; [|exact Hinfo].
    unfold map_read, PrintlnPaths, ensure_dir, exists_, MkdirAll, FromNet, call_Method,
      cur_world, log_call, ret.
    unfold bind. cbv beta iota zeta. simpl.
    destruct_env_calls.
    all: eexists; split; [rewrite Ht; rewrite <- !app_assoc; reflexivity|].
    all: simpl; rewrite ?String.eqb_refl, ?orb_true_r; simpl; auto.
  - erewrite bind_Panicked; [|exact Hinfo]. exists []. simpl. rewrite Ht, app_nil_r. auto.
Qed.

(** ** C5 *)

(** C5: the calls of [GetCompilerPackage] are the message, [GetCacheDir], at
    most one cache lookup, with no existence check or directory creation
    before it, and then, only after a lookup, the network stage, in which the
    install directory is ensured before any fetch. *)
Theorem GetCompilerPackage_call_order version dir s :
  exists r new1 new2,
    trace (out_state (GetCompilerPackage World GOOS env version dir s)) =
      (trace s ++ [EvPrint "Downloading compiler package"; EvGetCacheDir r] ++ new1 ++ new2)%list /\
    forallb is_FromCache new1 = true /\ length new1 <= 1 /\
    forallb (fun x => negb (is_FromCache x)) new2 = true /\
    ensured_before dir is_FromNet false new2 = true /\
    (new1 = [] -> new2 = []).
Proof.
  unfold GetCompilerPackage. rewrite print_then.
  unfold GetCacheDir at 1, cur_world, log_call, bind at 1 2. simpl.
  destruct (env_GetCacheDir env (world s)) as [w' [cd [e|]]] eqn:Hc.
  - exists (cd, Some e), [], []. unfold ret. simpl. rewrite <- app_assoc.
    split; [reflexivity|]. repeat split; auto.
  - unfold bind at 1 2, ret at 1. simpl.
    set (s1 := {| world := w'; trace := (trace s ++ [EvPrint "Downloading compiler package"]) ++
                                          [EvGetCacheDir (cd, None)];
                  heap := heap s; next := next s; globals := globals s |}).
    destruct (CompilerFromCache_trace cd version dir s1) as (new1 & Ht1 & Hc1 & Hl1).
    exists (cd, None), new1.
    destruct (CompilerFromCache World GOOS env cd version dir s1) as [s2 [hit [e|]]|s2 msg] eqn:Hfc;
      simpl in Ht1.
    + exists []. unfold ret. simpl. rewrite Ht1. subst s1. simpl.
      rewrite app_nil_r, <- !app_assoc. split; [reflexivity|]. repeat split; auto.
    + destruct hit.
      * exists []. unfold ret. simpl. rewrite Ht1. subst s1. simpl.
        rewrite app_nil_r, <- !app_assoc. split; [reflexivity|]. repeat split; auto.
      * destruct (CompilerFromNet_trace cd version dir s2) as (new2 & Ht2 & He2 & _ & Hn2).
        exists new2.
        rewrite out_state_bind_ret by (intros [e'|] s'; reflexivity).
        rewrite Ht2, Ht1. simpl. rewrite <- !app_assoc.
        split; [reflexivity|]. repeat split; auto.
        intros ->. simpl in Ht1. rewrite app_nil_r in Ht1.
        rewrite CompilerFromCache_eq in Hfc.
        destruct (info_no_io s1 GOOS version) as (_ & Hti & _).
        destruct (GetCompilerPackageInfo World GOOS GOOS version s1) as [s3 [[pkg fn] [e'|]]|s3 msg];
          simpl in Hfc; [discriminate| |discriminate].
        destruct (env_FromCache _ _ _ _ _ _ _) as [w'' r'']. injection Hfc as <- _.
        simpl in Ht1, Hti. rewrite Hti in Ht1.
        apply (f_equal (@length Event)) in Ht1. rewrite length_app in Ht1. simpl in Ht1. lia.
    + exists []. simpl. rewrite Ht1. subst s1. simpl.
      rewrite app_nil_r, <- !app_assoc. split; [reflexivity|]. repeat split; auto.
Qed.

Lemma init_heap_wf (w : World) : heap_wf (init_st w).
Proof.
  intros l H. unfold init_st, heap_init in H; simpl in H.
  rewrite !lookup_insert_is_Some', lookup_empty in H. simpl.
  destruct H as [<-|[<-|[<-|H]]]; [lia..|inversion H; discriminate].
Qed.

(** ** C9 *)

(** C9: [GetCompilerPackageInfo] leaves the package-level variables and
    every map already allocated (the catalog's [Paths] maps among them) as
    they were, for every [os] and [version], whether it returns or panics. *)
Theorem GetCompilerPackageInfo_catalog_unchanged s os version :
  heap_wf s ->
  let s' := out_state (GetCompilerPackageInfo World GOOS os version s) in
  globals s' = globals s /\ (forall l m, heap s !! l = Some m -> heap s' !! l = Some m).
Proof.
  intros Hwf. destruct (info_no_io s os version) as (_ & _ & Hg & Hh). auto.
Qed.

Lemma dbrace_after_app p a b :
  dbrace_after p (a ++ b) = dbrace_after p a || dbrace_after (last_brace p a) b.
Proof.
  revert p. induction a as [|c r IH]; intros p; simpl; [reflexivity|].
  now rewrite IH, orb_assoc.
Qed.

Lemma last_brace_app p a b : last_brace p (a ++ b) = last_brace (last_brace p a) b.
Proof. revert p. induction a as [|c r IH]; intros p; simpl; auto. Qed.

(** The escaper's replacements hold no [{]: on one character it scans like
    the character itself. *)
Lemma html_replace_brace c p :
  dbrace_after p (Template.html_replace c) = p && Ascii.eqb c "{"%char /\
  last_brace p (Template.html_replace c) = Ascii.eqb c "{"%char.
Proof.
  destruct c as [[] [] [] [] [] [] [] []], p; split; reflexivity.
Qed.

Lemma htmlEscaper_brace v p :
  dbrace_after p (Template.htmlEscaper v) = dbrace_after p v /\
  last_brace p (Template.htmlEscaper v) = last_brace p v.
Proof.
  revert p. induction v as [|c r IH]; intros p; simpl; [auto|].
  destruct (html_replace_brace c p) as [H1 H2].
  rewrite dbrace_after_app, last_brace_app, H1, H2.
  destruct (IH (Ascii.eqb c "{"%char)) as [-> ->]. auto.
Qed.

Ltac scan_brace :=
  repeat rewrite ?dbrace_after_app, ?last_brace_app;
  repeat rewrite ?(proj1 (htmlEscaper_brace _ _)), ?(proj2 (htmlEscaper_brace _ _));
  simpl; rewrite ?andb_false_r; simpl.

(** ** C8 *)

(** C8: on the initialized catalog, for every supported [os] and every
    version without [{{], [GetCompilerPackageInfo] returns a descriptor whose
    URL, and every key and value of whose new path map, hold no [{{]. *)
Theorem catalog_resolution_total s os version :
  catalog_ok s -> has_dbrace version = false -> select os catalog_init <> None ->
  exists pkg' fn err ps,
    GetCompilerPackageInfo World GOOS os version s =
      Done (mkSt (world s) (trace s) (<[next s := ps]> (heap s)) (Pos.succ (next s)) (globals s))
           (pkg', fn, err) /\
    Paths pkg' = Some (next s) /\
    has_dbrace (URL pkg') = false /\
    Forall (fun kv => has_dbrace (fst kv) = false /\ has_dbrace (snd kv) = false) ps.
Proof.
  intros Hok Hv Hsel.
  destruct (select os catalog_init) as [pkg|] eqn:Es; [|congruence].
  destruct (catalog_resolves os pkg version Es)
    as (osname & ext & p1 & t1 & p2 & t2 & Hrow & Hu & Hps).
  rewrite (info_catalog s os version pkg _ _ Hok Es Hu Hps).
  do 4 eexists. split; [reflexivity|]. split; [reflexivity|].
  unfold has_dbrace in *. simpl.
  unfold pawn_url, pawn_member.
  simpl in Hrow. destruct Hrow as [Hr|[Hr|[Hr|[]]]]; injection Hr as <- <- <- <- <- <-.
  all: split; [scan_brace; rewrite ?Hv; reflexivity|].
  all: repeat constructor; simpl; scan_brace; rewrite ?Hv; reflexivity.
Qed.

(** When a key or value of the path map does not resolve, the loop panics. *)
Lemma resolve_paths_None entries version l s acc :
  heap s !! l = Some acc ->
  resolve_entries entries version acc = None ->
  exists s' msg, resolve_paths World entries version l s = Panicked s' msg.
Proof.
  revert s acc. induction entries as [|[src tgt] rest IH]; intros s acc Hl Hres; simpl in Hres;
    [discriminate|].
  simpl. destruct (Template.resolve_str src version) as [s'|] eqn:Es.
  2:{ destruct (resolve_None _ _ s Es) as [msg Hm]. rewrite (bind_Panicked _ _ _ _ _ Hm). eauto. }
  rewrite (bind_Done _ _ _ _ _ (resolve_Some _ _ _ s Es)).
  destruct (Template.resolve_str tgt version) as [t'|] eqn:Et.
  2:{ destruct (resolve_None _ _ s Et) as [msg Hm]. rewrite (bind_Panicked _ _ _ _ _ Hm). eauto. }
  rewrite (bind_Done _ _ _ _ _ (resolve_Some _ _ _ s Et)).
  rewrite (bind_Done _ _ _ _ _ (map_store_eq l s' t' s)).
  apply (IH _ (gomap_insert s' t' acc)); simpl; [|exact Hres].
  now rewrite Hl, lookup_insert_eq.
Qed.

(** ** C6 *)

(** C6: a template of the selected descriptor that html/template cannot
    parse or execute, the URL or a key or value of the path map (as read
    after the new map is made), makes [GetCompilerPackageInfo] panic; it
    returns no error. On a catalog as initialized it never panics, whatever
    the [os] and [version]. *)
Theorem GetCompilerPackageInfo_malformed_panics :
  (forall s os version pkg,
     select os (globals s) = Some pkg ->
     (Template.resolve_str (URL pkg) version = None \/
      resolve_entries (match Paths pkg with
                       | Some l => default [] (<[next s := []]> (heap s) !! l)
                       | None => []
                       end) version [] = None) ->
     exists s' msg, GetCompilerPackageInfo World GOOS os version s = Panicked s' msg) /\
  (forall s os version,
     catalog_ok s -> exists s' r, GetCompilerPackageInfo World GOOS os version s = Done s' r).
Proof.
  split.
  - intros s os version pkg Hsel Hbad.
    unfold GetCompilerPackageInfo.
    rewrite (bind_Done _ _ s s (globals s) eq_refl), Hsel.
    destruct (Template.resolve_str (URL pkg) version) as [u|] eqn:Hu.
    2:{ destruct (resolve_None _ _ s Hu) as [msg Hm]. rewrite (bind_Panicked _ _ _ _ _ Hm). eauto. }
    destruct Hbad as [Hbad|Hbad]; [discriminate|].
    rewrite (bind_Done _ _ _ _ _ (resolve_Some _ _ _ s Hu)).
    unfold bind at 1. cbn [make_map].
    set (s1 := mkSt (world s) (trace s) (<[next s := []]> (heap s)) (Pos.succ (next s)) (globals s)).
    assert (Hread : map_read World (Paths pkg) s1 =
      Done s1 (match Paths pkg with
               | Some l => default [] (<[next s := []]> (heap s) !! l)
               | None => []
               end)) by reflexivity.
    rewrite (bind_Done _ _ _ _ _ Hread).
    destruct (resolve_paths_None _ _ (next s) s1 [] (lookup_insert_eq _ _ _) Hbad) as (s' & msg & Hp).
    rewrite (bind_Panicked _ _ _ _ _ Hp). eauto.
  - intros s os version Hok.
    destruct (select os catalog_init) as [pkg|] eqn:Es.
    + destruct (catalog_resolves os pkg version Es) as (? & ? & ? & ? & ? & ? & _ & Hu & Hps).
      rewrite (info_catalog s os version pkg _ _ Hok Es Hu Hps). eauto.
    + destruct Hok as (Hg & _). rewrite info_unsupported by (rewrite Hg; exact Es). eauto.
Qed.

(** ** C7 *)

(** C7: once the descriptor is resolved, [CompilerFromNet] ensures the cache
    directory before it fetches, fetches at most once, returns the wrapped
    fetch error without extracting when the fetch fails, and extracts only
    right after a successful fetch, with the package's extraction function,
    the downloaded file and the resolved path map. *)
Theorem CompilerFromNet_fetch_then_extract cacheDir version dir s s1 pkg fn :
  GetCompilerPackageInfo World GOOS GOOS version s = Done s1 (pkg, fn, None) ->
  let o := CompilerFromNet World GOOS env cacheDir version dir s in
  let paths : gomap := match Paths pkg with Some l => default [] (heap s1 !! l) | None => [] end in
  exists new, trace (out_state o) = (trace s ++ new)%list /\
    ensured_before cacheDir is_FromNet false new = true /\
    length (filter is_FromNet new) <= 1 /\
    (forall p e, In (EvFromNet (URL pkg) cacheDir fn (p, Some e)) new ->
       o = Done (out_state o) (Some (Wrap e "failed to download package")) /\
       forallb (fun x => negb (is_Extract x)) new = true) /\
    (forall x, In x new -> is_Extract x = true ->
       exists pre p m r, new = (pre ++ [EvFromNet (URL pkg) cacheDir fn (p, None);
                                         EvExtract m p dir paths r])%list /\
                         Method pkg = Some m).
Proof.
  intros Hinfo o paths. subst o.
  destruct (info_no_io s GOOS version) as (_ & Ht & _).
  rewrite Hinfo in Ht. simpl in Ht.
  unfold CompilerFromNet. erewrite bind_Done; [|exact Hinfo].
  unfold map_read, PrintlnPaths, ensure_dir, exists_, MkdirAll, FromNet, call_Method,
    cur_world, log_call, ret.
  unfold bind. cbv beta iota zeta. simpl. fold paths.
  destruct_env_calls.
  all: eexists; split; [rewrite Ht; rewrite <- !app_assoc; reflexivity|].
  all: simpl; rewrite ?String.eqb_refl, ?orb_true_r; simpl.
  all: refine (conj eq_refl (conj _ (conj _ _))); [lia
       | intros p e' Hin; repeat destruct Hin as [Hin|Hin]; try discriminate; try contradiction;
          injection Hin as -> ->; split; reflexivity
       | intros x Hin Hx; repeat destruct Hin as [<-|Hin]; simpl in Hx; try discriminate; try contradiction;
          match goal with |- exists pre p m r, ?l = _ /\ _ => exists (removelast (removelast l)) end;
          eexists _, _, _; split; reflexivity].
Qed.

End Proofs.

(** ** C1 *)

Lemma upd_eq f k v : Store.upd f k v k = Some v.
Proof. unfold Store.upd. now rewrite String.eqb_refl. Qed.

Lemma apply_writes_notin f ws p :
  ~ In p (map fst ws) -> Store.apply_writes f ws p = f p.
Proof.
  revert f. induction ws as [|[k b] r IH]; intros f Hn; simpl in *; auto.
  rewrite IH by tauto. unfold Store.upd.
  destruct (String.eqb_spec p k); [subst; tauto|reflexivity].
Qed.

(** Two stores that agree outside the written paths agree after the writes. *)
Lemma apply_writes_agree f f' ws :
  (forall q, ~ In q (map fst ws) -> f q = f' q) ->
  forall p, Store.apply_writes f ws p = Store.apply_writes f' ws p.
Proof.
  revert f f'. induction ws as [|[k b] r IH]; intros f f' Hag p; simpl in *.
  - apply Hag; tauto.
  - apply IH. intros q Hq. unfold Store.upd.
    destruct (String.eqb_spec q k); [reflexivity|]. apply Hag. intuition.
Qed.

Lemma apply_writes_idem g ws p :
  Store.apply_writes (Store.apply_writes g ws) ws p = Store.apply_writes g ws p.
Proof. apply apply_writes_agree. intros q Hq. now apply apply_writes_notin. Qed.

Lemma extract_members_keys members dir ps ws e :
  Store.extract_members members dir ps = (ws, e) ->
  forall q, In q (map fst ws) -> exists t, In t (map snd ps) /\ q = Store.join dir t.
Proof.
  revert ws e. induction ps as [|[src tgt] r IH]; intros ws e H q Hq; simpl in H.
  - injection H as <- <-. contradiction.
  - destruct (Store.assoc src members); [|injection H as <- <-; contradiction].
    destruct (Store.extract_members members dir r) as [ws' e'] eqn:Hr.
    injection H as <- <-. simpl in Hq. destruct Hq as [<-|Hq].
    + exists tgt. simpl. auto.
    + destruct (IH _ _ eq_refl q Hq) as (t & Ht & ->). exists t. simpl. auto.
Qed.

Lemma extract_plan_keys m b dir ps ws e :
  Store.extract_plan m b dir ps = (ws, e) ->
  forall q, In q (map fst ws) -> exists t, In t (map snd ps) /\ q = Store.join dir t.
Proof.
  unfold Store.extract_plan. destruct b as [c|fmt members].
  - intros H. injection H as <- <-. contradiction.
  - destruct (ExtractFunc_eqb fmt m).
    + apply extract_members_keys.
    + intros H. injection H as <- <-. contradiction.
Qed.

Section Rerun.
#[local] Arguments String.eqb : simpl never.
Variables (goos version dir : string) (pkg : CompilerPackage) (u fn : string) (ps : gomap) (m : ExtractFunc).
Hypothesis Hsel : select goos catalog_init = Some pkg.
Hypothesis Hu : Template.resolve_str (URL pkg) version = Some u.
Hypothesis Hps : resolve_entries (catalog_entries pkg) version [] = Some ps.
Hypothesis Hfn : parse_filename goos u = (fn, None).
Hypothesis Hm : Method pkg = Some m.

Lemma catalog_ok_frame {W} (s : St W) w t :
  catalog_ok s -> catalog_ok (@mkSt W w t (heap s) (next s) (globals s)).
Proof. auto. Qed.

Lemma rerun_hit w b ws :
  Store.fs w (Store.join cache_root fn) = Some b ->
  Store.extract_plan m b dir ps = (ws, None) ->
  exists s2,
    GetCompilerPackage Store.world goos Store.env version dir (init_st w) = Done s2 None /\
    trace s2 = [EvPrint "Downloading compiler package"; EvGetCacheDir (cache_root, None);
                EvFromCache cache_root fn dir (Some m) ps (true, None)] /\
    world s2 = Store.mkWorld (Store.apply_writes (Store.fs w) ws) (Store.dirs w) (Store.remote w).
Proof.
  intros Hb Hplan.
  unfold GetCompilerPackage. rewrite print_then.
  unfold GetCacheDir at 1, cur_world, log_call, bind at 1 2. simpl.
  unfold bind at 1. rewrite CompilerFromCache_eq.
  rewrite (info_catalog _ goos _ _ _ pkg u ps) by first [assumption | repeat split; reflexivity].
  rewrite Hfn. simpl. rewrite lookup_insert_eq, Hm. simpl.
  unfold Store.satisfy, Store.extract. rewrite Hb, Hplan. simpl.
  eexists. split; [reflexivity|]. split; reflexivity.
Qed.
Lemma net_success s s' :
  catalog_ok s ->
  CompilerFromNet Store.world goos Store.env cache_root version dir s = Done s' None ->
  exists b ws g, Store.extract_plan m b dir ps = (ws, None) /\
    g (Store.join cache_root fn) = Some b /\
    forall p, Store.fs (world s') p = Store.apply_writes g ws p.
Proof.
  intros Hok H.
  unfold CompilerFromNet in H.
  rewrite (bind_Done _ _ _ _ _ _ (info_catalog _ goos _ _ _ pkg u ps Hok Hsel Hu Hps)) in H.
  rewrite Hfn in H. simpl in H.
  unfold map_read, PrintlnPaths, ensure_dir, exists_, MkdirAll, FromNet, call_Method,
    cur_world, log_call, ret in H.
  unfold bind in H. cbv beta iota zeta in H. simpl in H.
  rewrite lookup_insert_eq, Hm in H. simpl in H.
  unfold Store.fetch, Store.extract in H.
  repeat (match type of H with
    | context [?b0 || true] => rewrite orb_true_r in H
    | context [(?x =? ?y) || false] => rewrite orb_false_r in H; destruct (x =? y)
    | context [Store.dirs ?w ?p] => destruct (Store.dirs w p)
    | context [Store.remote ?w ?p] => destruct (Store.remote w p) as [b|]
    end; simpl in H); try discriminate.
  all: first [rewrite upd_eq, lookup_insert_eq in H; simpl in H | match type of H with ?g => idtac "FAIL" g end].
  all: destruct (Store.extract_plan m b dir ps) as [ws [e|]] eqn:Hp; simpl in H; try discriminate.
  all: injection H as <-; simpl.
  all: eexists b, ws, _; split; [exact Hp|]; split; [|intros p; reflexivity].
  all: apply upd_eq.
Qed.

Lemma first_run w s1 :
  GetCompilerPackage Store.world goos Store.env version dir (init_st w) = Done s1 None ->
  exists b ws g, Store.extract_plan m b dir ps = (ws, None) /\
    g (Store.join cache_root fn) = Some b /\
    forall p, Store.fs (world s1) p = Store.apply_writes g ws p.
Proof.
  intros H.
  unfold GetCompilerPackage in H. rewrite print_then in H.
  unfold GetCacheDir at 1, cur_world, log_call, bind at 1 2 in H. simpl in H.
  unfold bind at 1 in H. rewrite CompilerFromCache_eq in H.
  rewrite (info_catalog _ goos _ _ _ pkg u ps) in H by first [assumption | repeat split; reflexivity].
  rewrite Hfn in H. simpl in H. rewrite lookup_insert_eq, Hm in H. simpl in H.
  unfold Store.satisfy, Store.extract in H.
  destruct (Store.fs w (Store.join cache_root fn)) as [b|] eqn:Hb; simpl in H.
  - destruct (Store.extract_plan m b dir ps) as [ws [e|]] eqn:Hp; simpl in H.
    + unfold bind in H.
      match type of H with
      | context [CompilerFromNet ?W ?g ?en ?c ?v ?d ?st] =>
          destruct (CompilerFromNet W g en c v d st) as [s' [e'|]|] eqn:Hn
      end; simpl in H; try discriminate.
      injection H as <-. apply net_success in Hn; [exact Hn|].
      repeat split; reflexivity.
    + injection H as <-. exists b, ws, (Store.fs w). simpl. auto.
  - unfold bind in H.
    match type of H with
    | context [CompilerFromNet ?W ?g ?en ?c ?v ?d ?st] =>
        destruct (CompilerFromNet W g en c v d st) as [s' [e'|]|] eqn:Hn
    end; simpl in H; try discriminate.
    injection H as <-. apply net_success in Hn; [exact Hn|].
    repeat split; reflexivity.
Qed.

Lemma no_clobber_eq :
  no_clobber goos version dir =
  forallb (fun kv => negb (String.eqb (Store.join dir (snd kv)) (Store.join cache_root fn))) ps.
Proof.
  unfold no_clobber.
  rewrite (info_catalog unit goos (init_st tt) goos version pkg u ps)
    by first [assumption | repeat split; reflexivity].
  rewrite Hfn. simpl. now rewrite lookup_insert_eq.
Qed.

Lemma rerun_after_success w s1 :
  no_clobber goos version dir = true ->
  GetCompilerPackage Store.world goos Store.env version dir (init_st w) = Done s1 None ->
  exists s2,
    GetCompilerPackage Store.world goos Store.env version dir (init_st (world s1)) = Done s2 None /\
    trace s2 = [EvPrint "Downloading compiler package"; EvGetCacheDir (cache_root, None);
                EvFromCache cache_root fn dir (Some m) ps (true, None)] /\
    (forall p, Store.fs (world s2) p = Store.fs (world s1) p) /\
    Store.dirs (world s2) = Store.dirs (world s1).
Proof.
  intros Hnc H1.
  destruct (first_run w s1 H1) as (b & ws & g & Hp & Hg & Hfs).
  rewrite no_clobber_eq in Hnc.
  assert (Hnot : ~ In (Store.join cache_root fn) (map fst ws)).
  { intros Hin. destruct (extract_plan_keys _ _ _ _ _ _ Hp _ Hin) as (t & Ht & Heq).
    apply in_map_iff in Ht. destruct Ht as ([src t'] & <- & Hkv).
    rewrite forallb_forall in Hnc. specialize (Hnc _ Hkv). simpl in Hnc.
    rewrite Heq, String.eqb_refl in Hnc. discriminate. }
  assert (Hb : Store.fs (world s1) (Store.join cache_root fn) = Some b).
  { rewrite Hfs, apply_writes_notin by exact Hnot. exact Hg. }
  destruct (rerun_hit (world s1) b ws Hb Hp) as (s2 & Hrun & Ht & Hw).
  exists s2. split; [exact Hrun|]. split; [exact Ht|].
  rewrite Hw. simpl. split; [|reflexivity].
  intros p. rewrite Hfs.
  rewrite (apply_writes_agree (Store.fs (world s1)) (Store.apply_writes g ws) ws (fun q _ => Hfs q) p).
  apply apply_writes_idem.
Qed.

End Rerun.

Ltac run_to_cache_stage H :=
  unfold GetCompilerPackage in H; rewrite print_then in H;
  unfold GetCacheDir at 1, cur_world, log_call, bind at 1 2 in H; simpl in H;
  unfold bind at 1 in H; rewrite CompilerFromCache_eq in H.

Lemma first_run_info goos version dir w s1 :
  GetCompilerPackage Store.world goos Store.env version dir (init_st w) = Done s1 None ->
  exists pkg u ps fn m, select goos catalog_init = Some pkg /\
    Template.resolve_str (URL pkg) version = Some u /\
    resolve_entries (catalog_entries pkg) version [] = Some ps /\
    parse_filename goos u = (fn, None) /\ Method pkg = Some m.
Proof.
  intros H.
  destruct (select goos catalog_init) as [pkg|] eqn:Hsel.
  2:{ run_to_cache_stage H. rewrite info_unsupported in H by exact Hsel.
      simpl in H. discriminate. }
  destruct (catalog_resolves _ _ version Hsel) as (osname & ext & p1 & t1 & p2 & t2 & _ & Hu & Hps).
  destruct (parse_filename goos (pawn_url osname ext version)) as [fn [e|]] eqn:Hfn.
  - exfalso. run_to_cache_stage H.
    assert (Hok : catalog_ok (@mkSt Store.world w
      [EvPrint "Downloading compiler package"; EvGetCacheDir (cache_root, None)]
      heap_init 4 catalog_init)) by (repeat split; reflexivity).
    rewrite (info_catalog _ goos _ _ _ pkg _ _ Hok Hsel Hu Hps) in H.
    rewrite Hfn in H. simpl in H. discriminate.
  - exists pkg, (pawn_url osname ext version),
      [(pawn_member osname p1 version, t1); (pawn_member osname p2 version, t2)], fn.
    destruct (select_catalog _ _ Hsel) as [ -> | [ -> | -> ] ]; [exists Unzip | exists Untar | exists Unzip];
      refine (conj _ (conj Hu (conj Hps (conj Hfn _)))); first [exact Hsel | reflexivity].
Qed.

(** C1: a clean hit of the cache stage ends [GetCompilerPackage] in the
    state the cache stage left: after the cache directory, the run adds only
    the cache lookup, and no fetch. In the modelled cache store, re-running
    a request that succeeded, from the world it left, is a clean cache hit
    with no fetch that leaves the same files and directories, provided no
    install path of the descriptor is the cache file itself ([no_clobber]). *)
Theorem GetCompilerPackage_hit_is_final :
  (forall World GOOS (env : Env World) version dir s s1 cacheDir s2,
     (Printf World "Downloading compiler package" ;;; GetCacheDir World env) s = Done s1 (cacheDir, None) ->
     CompilerFromCache World GOOS env cacheDir version dir s1 = Done s2 (true, None) ->
     GetCompilerPackage World GOOS env version dir s = Done s2 None /\
     exists new, trace s2 = (trace s ++ new)%list /\ forallb (fun e => negb (is_FromNet e)) new = true) /\
  (forall goos version dir w s1,
     no_clobber goos version dir = true ->
     GetCompilerPackage Store.world goos Store.env version dir (init_st w) = Done s1 None ->
     exists s2,
       GetCompilerPackage Store.world goos Store.env version dir (init_st (world s1)) = Done s2 None /\
       forallb (fun e => negb (is_FromNet e)) (trace s2) = true /\
       (forall p, Store.fs (world s2) p = Store.fs (world s1) p) /\
       Store.dirs (world s2) = Store.dirs (world s1)).
Proof.
  split.
  - intros World GOOS env version dir s s1 cacheDir s2 H1 H2.
    split; [exact (cache_hit_returns _ _ _ _ _ _ _ _ _ H1 H2)|].
    destruct (CompilerFromCache_trace World GOOS env cacheDir version dir s1) as (new & Ht & Hc & _).
    rewrite H2 in Ht. simpl in Ht.
    rewrite print_then in H1. unfold GetCacheDir, cur_world, log_call, bind, ret in H1.
    simpl in H1. destruct (env_GetCacheDir env (world s)) as [w' r]. injection H1 as <- _.
    simpl in Ht. exists ([EvPrint "Downloading compiler package"; EvGetCacheDir r] ++ new)%list.
    split; [rewrite Ht, <- !app_assoc; reflexivity|].
    simpl. clear Ht. induction new as [|e new IH]; simpl in *; auto.
    apply andb_prop in Hc. destruct Hc as [He Hc]. destruct e; try discriminate; auto.
  - intros goos version dir w s1 Hnc H1.
    destruct (first_run_info _ _ _ _ _ H1) as (pkg & u & ps & fn & m & Hsel & Hu & Hps & Hfn & Hm).
    destruct (rerun_after_success goos version dir pkg u fn ps m Hsel Hu Hps Hfn Hm w s1 Hnc H1)
      as (s2 & Hrun & Ht & Hfs & Hd).
    exists s2. refine (conj Hrun (conj _ (conj Hfs Hd))). rewrite Ht. reflexivity.
Qed.

Lemma CompilerFromCache_miss_falls_through_witness :
  let s' := out_state (CompilerFromCache unit "linux" env_corrupt_cache cache_root "3.10.10" "/d" (init_st tt)) in
  let s1 := out_state ((Printf unit "Downloading compiler package" ;;;
                         GetCacheDir unit env_corrupt_cache) (init_st tt)) in
  let s2 := out_state (CompilerFromCache unit "linux" env_corrupt_cache cache_root "3.10.10" "/d" s1) in
    CompilerFromCache unit "linux" env_corrupt_cache cache_root "3.10.10" "/d" (init_st tt) =
      Done s' (false, None) /\
    trace s' = (trace (init_st tt) ++
      [EvFromCache cache_root "pawnc-3.10.10-linux.tar.gz" "/d" (Some Untar)
         [("pawnc-3.10.10-linux/bin/pawncc", "pawncc");
          ("pawnc-3.10.10-linux/lib/libpawnc.so", "libpawnc.so")]
         (false, Some (Errorf "zip: not a valid zip file"))])%list /\
    (Printf unit "Downloading compiler package" ;;; GetCacheDir unit env_corrupt_cache) (init_st tt) =
      Done s1 (cache_root, None) /\
    CompilerFromCache unit "linux" env_corrupt_cache cache_root "3.10.10" "/d" s1 = Done s2 (false, None) /\
    (false, @None error) = (false, None) /\
    GetCompilerPackage unit "linux" env_corrupt_cache "3.10.10" "/d" (init_st tt) =
      (err <- CompilerFromNet unit "linux" env_corrupt_cache cache_root "3.10.10" "/d" ;;
       ret (option_map (fun e => Wrap e ("failed to get package " ++ "3.10.10" ++ " from net")) err)) s2.
Proof.
  intros s' s1 s2.
  assert (H1 : CompilerFromCache unit "linux" env_corrupt_cache cache_root "3.10.10" "/d" (init_st tt) =
                 Done s' (false, None)) by (subst_lets; vm_compute; reflexivity).
  assert (H2 : trace s' = (trace (init_st tt) ++
      [EvFromCache cache_root "pawnc-3.10.10-linux.tar.gz" "/d" (Some Untar)
         [("pawnc-3.10.10-linux/bin/pawncc", "pawncc");
          ("pawnc-3.10.10-linux/lib/libpawnc.so", "libpawnc.so")]
         (false, Some (Errorf "zip: not a valid zip file"))])%list) by (subst_lets; vm_compute; reflexivity).
  assert (H3 : (Printf unit "Downloading compiler package" ;;; GetCacheDir unit env_corrupt_cache) (init_st tt) =
      Done s1 (cache_root, None)) by (subst_lets; vm_compute; reflexivity).
  assert (H4 : CompilerFromCache unit "linux" env_corrupt_cache cache_root "3.10.10" "/d" s1 =
      Done s2 (false, None)) by (subst_lets; vm_compute; reflexivity).
  refine (conj H1 (conj H2 (conj H3 (conj H4 (conj _ _))))).
  - exact (proj1 (CompilerFromCache_miss_falls_through unit "linux" env_corrupt_cache)
             _ _ _ _ _ _ _ _ _ _ _ _ _ H1 H2).
  - exact (proj2 (CompilerFromCache_miss_falls_through unit "linux" env_corrupt_cache)
             _ _ _ _ _ _ H3 H4).
Defined.

Lemma GetCompilerPackage_cache_error_wins_witness :
  let s1 := out_state ((Printf unit "Downloading compiler package" ;;;
                         GetCacheDir unit env_hit_with_error) (init_st tt)) in
  let s2 := out_state (CompilerFromCache unit "linux" env_hit_with_error cache_root "3.10.10" "/d" s1) in
    (Printf unit "Downloading compiler package" ;;; GetCacheDir unit env_hit_with_error) (init_st tt) =
      Done s1 (cache_root, None) /\
    CompilerFromCache unit "linux" env_hit_with_error cache_root "3.10.10" "/d" s1 =
      Done s2 (true, Some (Errorf "failed to write pawncc")) /\
    GetCompilerPackage unit "linux" env_hit_with_error "3.10.10" "/d" (init_st tt) =
      Done s2 (Some (Wrap (Errorf "failed to write pawncc") ("failed to get package " ++ "3.10.10" ++ " from cache"))).
Proof.
  intros s1 s2.
  assert (H1 : (Printf unit "Downloading compiler package" ;;; GetCacheDir unit env_hit_with_error) (init_st tt) =
      Done s1 (cache_root, None)) by (subst_lets; vm_compute; reflexivity).
  assert (H2 : CompilerFromCache unit "linux" env_hit_with_error cache_root "3.10.10" "/d" s1 =
      Done s2 (true, Some (Errorf "failed to write pawncc"))) by (subst_lets; vm_compute; reflexivity).
  split; [exact H1|]. split; [exact H2|].
  exact (GetCompilerPackage_cache_error_wins unit "linux" env_hit_with_error _ _ _ _ _ _ _ H1 H2).
Defined.


Lemma CompilerFromNet_fetch_then_extract_witness :
  let s1 := out_state (GetCompilerPackageInfo unit "linux" "linux" "3.10.10" (init_st tt)) in
  let pkg := mkCompilerPackage
    "https://github.com/Zeex/pawn/releases/download/v3.10.10/pawnc-3.10.10-linux.tar.gz"
    (Some Untar) (Some 4%positive) in
  GetCompilerPackageInfo unit "linux" "linux" "3.10.10" (init_st tt) =
    Done s1 (pkg, "pawnc-3.10.10-linux.tar.gz", None) /\
  let o := CompilerFromNet unit "linux" env_corrupt_cache cache_root "3.10.10" "/d" (init_st tt) in
  let paths : gomap := match Paths pkg with Some l => default [] (heap s1 !! l) | None => [] end in
  exists new, trace (out_state o) = (trace (init_st tt) ++ new)%list /\
    ensured_before cache_root is_FromNet false new = true /\
    length (filter is_FromNet new) <= 1 /\
    (forall p e, In (EvFromNet (URL pkg) cache_root "pawnc-3.10.10-linux.tar.gz" (p, Some e)) new ->
       o = Done (out_state o) (Some (Wrap e "failed to download package")) /\
       forallb (fun x => negb (is_Extract x)) new = true) /\
    (forall x, In x new -> is_Extract x = true ->
       exists pre p m r, new = (pre ++ [EvFromNet (URL pkg) cache_root "pawnc-3.10.10-linux.tar.gz" (p, None);
                                         EvExtract m p "/d" paths r])%list /\
                         Method pkg = Some m).
Proof.
  intros s1 pkg.
  assert (H : GetCompilerPackageInfo unit "linux" "linux" "3.10.10" (init_st tt) =
                Done s1 (pkg, "pawnc-3.10.10-linux.tar.gz", None)) by (subst_lets; vm_compute; reflexivity).
  split; [exact H|].
  exact (CompilerFromNet_fetch_then_extract unit "linux" env_corrupt_cache cache_root "3.10.10" "/d"
           (init_st tt) s1 pkg "pawnc-3.10.10-linux.tar.gz" H).
Defined.

Lemma GetCompilerPackage_unsupported_os_witness :
  String.eqb "plan9" "darwin" = false /\ String.eqb "plan9" "linux" = false /\
  String.eqb "plan9" "windows" = false /\ globals (init_st tt) = catalog_init /\
  GetCompilerPackage unit "plan9" env_cache_hit "3.10.10" "/d" (init_st tt) =
    Done (mkSt tt ((trace (init_st tt) ++ [EvPrint "Downloading compiler package"]) ++
                   [EvGetCacheDir (cache_root, None)])
               (heap (init_st tt)) (next (init_st tt)) (globals (init_st tt)))
         (Some (Wrap (Errorf ("unsupported OS " ++ "plan9"))
                     ("failed to get package " ++ "3.10.10" ++ " from cache"))).
Proof.
  refine (conj eq_refl (conj eq_refl (conj eq_refl (conj eq_refl _)))).
  exact (GetCompilerPackage_unsupported_os unit "plan9" env_cache_hit "3.10.10" "/d" (init_st tt)
           eq_refl eq_refl eq_refl eq_refl).
Defined.

(** On an unsupported platform whose cache directory cannot be determined,
    the error returned does not name the platform. Nor does the error of
    [GetCompilerPackageInfo] for an unsupported [os] on a linux host: it
    names [runtime.GOOS]. *)
Lemma GetCompilerPackage_unsupported_os_counterexample :
  GetCompilerPackage unit "plan9" env_no_cache_dir "3.10.10" "/d" (init_st tt) =
    Done (out_state (GetCompilerPackage unit "plan9" env_no_cache_dir "3.10.10" "/d" (init_st tt)))
         (Some (Errorf "failed to get home directory")) /\
  String.index 0 "plan9" (error_message (Errorf "failed to get home directory")) = None /\
  GetCompilerPackageInfo unit "linux" "plan9" "3.10.10" (init_st tt) =
    Done (init_st tt) (zero_CompilerPackage, "", Some (Errorf "unsupported OS linux")) /\
  String.index 0 "plan9" (error_message (Errorf "unsupported OS linux")) = None.
Proof. vm_compute. repeat split. Qed.

(** A clean cache hit on linux: the lookup is made although no check or
    creation of the install directory precedes it. *)
Lemma GetCompilerPackage_call_order_counterexample :
  trace (out_state (GetCompilerPackage unit "linux" env_cache_hit "3.10.10" "/d" (init_st tt))) =
    [EvPrint "Downloading compiler package"; EvGetCacheDir (cache_root, None);
     EvFromCache cache_root "pawnc-3.10.10-linux.tar.gz" "/d" (Some Untar)
       [("pawnc-3.10.10-linux/bin/pawncc", "pawncc");
        ("pawnc-3.10.10-linux/lib/libpawnc.so", "libpawnc.so")] (true, None)] /\
  ensured_before "/d" is_FromCache false
    (trace (out_state (GetCompilerPackage unit "linux" env_cache_hit "3.10.10" "/d" (init_st tt)))) = false.
Proof. split; vm_compute; reflexivity. Qed.

Lemma GetCompilerPackageInfo_catalog_unchanged_witness :
  heap_wf (init_st tt) /\
  let s' := out_state (GetCompilerPackageInfo unit "linux" "darwin" "3.10.10" (init_st tt)) in
  globals s' = globals (init_st tt) /\
  (forall l m, heap (init_st tt) !! l = Some m -> heap s' !! l = Some m).
Proof.
  split; [exact (init_heap_wf unit tt)|].
  exact (GetCompilerPackageInfo_catalog_unchanged unit "linux" (init_st tt) "darwin" "3.10.10"
           (init_heap_wf unit tt)).
Defined.

Lemma GetCompilerPackageInfo_malformed_panics_witness :
  select "linux" (globals malformed_st) = Some (pawnLinux catalog_malformed) /\
  Template.resolve_str (URL (pawnLinux catalog_malformed)) "3.10.10" = None /\
  (exists s' msg, GetCompilerPackageInfo unit "linux" "linux" "3.10.10" malformed_st = Panicked s' msg) /\
  catalog_ok (init_st tt) /\
  (exists s' r, GetCompilerPackageInfo unit "linux" "plan9" "3.10.10" (init_st tt) = Done s' r).
Proof.
  assert (Hsel : select "linux" (globals malformed_st) = Some (pawnLinux catalog_malformed))
    by reflexivity.
  assert (Hbad : Template.resolve_str (URL (pawnLinux catalog_malformed)) "3.10.10" = None)
    by (vm_compute; reflexivity).
  refine (conj Hsel (conj Hbad (conj _ (conj (init_catalog_ok unit tt) _)))).
  - exact (proj1 (GetCompilerPackageInfo_malformed_panics unit "linux")
             malformed_st "linux" "3.10.10" _ Hsel (or_introl Hbad)).
  - exact (proj2 (GetCompilerPackageInfo_malformed_panics unit "linux")
             (init_st tt) "plan9" "3.10.10" (init_catalog_ok unit tt)).
Defined.

(** A malformed URL template crashes [GetCompilerPackageInfo] with the
    panic of [template.Must]; no error value is returned. *)
Lemma GetCompilerPackageInfo_malformed_panics_counterexample :
  GetCompilerPackageInfo unit "linux" "linux" "3.10.10" malformed_st =
    Panicked malformed_st "template: parse error".
Proof. vm_compute. reflexivity. Qed.

Lemma catalog_resolution_total_witness :
  catalog_ok (init_st tt) /\ has_dbrace "3.10.10" = false /\ select "linux" catalog_init <> None /\
  exists pkg' fn err ps,
    GetCompilerPackageInfo unit "linux" "linux" "3.10.10" (init_st tt) =
      Done (mkSt (world (init_st tt)) (trace (init_st tt)) (<[next (init_st tt) := ps]> (heap (init_st tt)))
                 (Pos.succ (next (init_st tt))) (globals (init_st tt)))
           (pkg', fn, err) /\
    Paths pkg' = Some (next (init_st tt)) /\
    has_dbrace (URL pkg') = false /\
    Forall (fun kv => has_dbrace (fst kv) = false /\ has_dbrace (snd kv) = false) ps.
Proof.
  assert (Hv : has_dbrace "3.10.10" = false) by reflexivity.
  assert (Hs : select "linux" catalog_init <> None) by (simpl; discriminate).
  refine (conj (init_catalog_ok unit tt) (conj Hv (conj Hs _))).
  exact (catalog_resolution_total unit "linux" (init_st tt) "linux" "3.10.10"
           (init_catalog_ok unit tt) Hv Hs).
Defined.

Lemma GetCompilerPackage_hit_is_final_witness :
  let s1 := out_state (GetCompilerPackage Store.world "linux" Store.env "3.10.10" "/d"
                         (init_st (release_world "3.10.10"))) in
  let t := out_state ((Printf Store.world "Downloading compiler package" ;;;
                       GetCacheDir Store.world Store.env) (init_st (world s1))) in
  let s2 := out_state (CompilerFromCache Store.world "linux" Store.env cache_root "3.10.10" "/d" t) in
  no_clobber "linux" "3.10.10" "/d" = true /\
  GetCompilerPackage Store.world "linux" Store.env "3.10.10" "/d"
    (init_st (release_world "3.10.10")) = Done s1 None /\
  (Printf Store.world "Downloading compiler package" ;;; GetCacheDir Store.world Store.env)
    (init_st (world s1)) = Done t (cache_root, None) /\
  CompilerFromCache Store.world "linux" Store.env cache_root "3.10.10" "/d" t = Done s2 (true, None) /\
  (GetCompilerPackage Store.world "linux" Store.env "3.10.10" "/d" (init_st (world s1)) = Done s2 None /\
   exists new, trace s2 = (trace (init_st (world s1)) ++ new)%list /\
               forallb (fun e => negb (is_FromNet e)) new = true) /\
  (exists s2',
     GetCompilerPackage Store.world "linux" Store.env "3.10.10" "/d" (init_st (world s1)) = Done s2' None /\
     forallb (fun e => negb (is_FromNet e)) (trace s2') = true /\
     (forall p, Store.fs (world s2') p = Store.fs (world s1) p) /\
     Store.dirs (world s2') = Store.dirs (world s1)).
Proof.
  intros s1 t s2.
  assert (H0 : no_clobber "linux" "3.10.10" "/d" = true) by (vm_compute; reflexivity).
  assert (H1 : GetCompilerPackage Store.world "linux" Store.env "3.10.10" "/d"
                 (init_st (release_world "3.10.10")) = Done s1 None)
    by (subst_lets; vm_compute; reflexivity).
  assert (H2 : (Printf Store.world "Downloading compiler package" ;;; GetCacheDir Store.world Store.env)
                 (init_st (world s1)) = Done t (cache_root, None))
    by (subst_lets; vm_compute; reflexivity).
  assert (H3 : CompilerFromCache Store.world "linux" Store.env cache_root "3.10.10" "/d" t =
                 Done s2 (true, None))
    by (subst_lets; vm_compute; reflexivity).
  refine (conj H0 (conj H1 (conj H2 (conj H3 (conj _ _))))).
  - exact (proj1 GetCompilerPackage_hit_is_final _ _ _ _ _ _ _ _ _ H2 H3).
  - exact (proj2 GetCompilerPackage_hit_is_final _ _ _ _ _ H0 H1).
Defined.

(** Installing into the cache directory itself, with a version that makes
    the cache file name [pawncc]: the first run succeeds from the network,
    but its extraction overwrites the cached archive with the [pawncc]
    binary, so the second run finds a corrupt cache entry and fetches the
    archive again. *)
Lemma GetCompilerPackage_hit_is_final_counterexample :
  let s1 := out_state (GetCompilerPackage Store.world "linux" Store.env "/pawncc?" cache_root
                         (init_st (release_world "/pawncc?"))) in
  let s2 := out_state (GetCompilerPackage Store.world "linux" Store.env "/pawncc?" cache_root
                         (init_st (world s1))) in
  GetCompilerPackage Store.world "linux" Store.env "/pawncc?" cache_root
    (init_st (release_world "/pawncc?")) = Done s1 None /\
  Store.fs (world s1) (Store.join cache_root "pawncc") = Some (Store.Bytes "pawncc image") /\
  forallb (fun e => negb (is_FromNet e)) (trace s2) = false /\
  no_clobber "linux" "/pawncc?" cache_root = false.
Proof.
  intros s1 s2.
  refine (conj _ (conj _ (conj _ _))); subst_lets; vm_compute; reflexivity.
Qed.

(** ** C3 *)

(** C3: with the version [1+2], [GetCompilerPackageInfo] resolves the linux
    locator and path map with the version HTML-escaped ([&#43;]), not with
    the version substituted literally, and the file name it derives from
    the locator is cut at the [#]. *)
Lemma GetCompilerPackageInfo_escapes_version :
  let o := GetCompilerPackageInfo unit "linux" "linux" "1+2" (init_st tt) in
  o = Done (out_state o)
        (mkCompilerPackage
           "https://github.com/Zeex/pawn/releases/download/v1&#43;2/pawnc-1&#43;2-linux.tar.gz"
           (Some Untar) (Some 4%positive), "v1&", None) /\
  heap (out_state o) !! 4%positive =
    Some [("pawnc-1&#43;2-linux/bin/pawncc", "pawncc");
          ("pawnc-1&#43;2-linux/lib/libpawnc.so", "libpawnc.so")] /\
  literal_subst (URL (pawnLinux catalog_init)) "1+2" =
    "https://github.com/Zeex/pawn/releases/download/v1+2/pawnc-1+2-linux.tar.gz" /\
  map (fun kv => (literal_subst (fst kv) "1+2", literal_subst (snd kv) "1+2")) pawnLinux_Paths =
    [("pawnc-1+2-linux/bin/pawncc", "pawncc"); ("pawnc-1+2-linux/lib/libpawnc.so", "libpawnc.so")].
Proof.
  intros o.
  refine (conj _ (conj _ (conj _ _))); subst_lets; vm_compute; reflexivity.
Qed.


(** * The rook package and the error paths of the compiler stages *)

Section CompilerErrors.

Variable World : Type.
Variable GOOS : string.
Variable env : Env World.

(** When [GetCacheDir] fails, [GetCompilerPackage] returns that error,
    unwrapped, with no call after it. *)
Theorem GetCompilerPackage_cache_dir_error version dir s w' cd e :
  env_GetCacheDir env (world s) = (w', (cd, Some e)) ->
  GetCompilerPackage World GOOS env version dir s =
  Done (mkSt w' (trace s ++ [EvPrint "Downloading compiler package"; EvGetCacheDir (cd, Some e)])
             (heap s) (next s) (globals s))
       (Some e).
Proof.
  intros Hc.
  unfold GetCompilerPackage, Printf, GetCacheDir, cur_world, log_call, ret, bind; simpl.
  rewrite Hc; simpl; rewrite <- app_assoc; reflexivity.
Qed.

(** When the install directory is missing and cannot be created,
    [CompilerFromNet] returns the wrapped error and makes no other call:
    no check of the cache directory, no download. *)
Theorem CompilerFromNet_dir_error cacheDir version dir s s1 pkg fn w2 e :
  GetCompilerPackageInfo World GOOS GOOS version s = Done s1 (pkg, fn, None) ->
  env_exists env (world s1) dir = false ->
  env_MkdirAll env (world s1) dir = (w2, Some e) ->
  let paths : gomap := match Paths pkg with Some l => default [] (heap s1 !! l) | None => [] end in
  CompilerFromNet World GOOS env cacheDir version dir s =
  Done (mkSt w2 (trace s1 ++ [EvPrintPaths paths; EvExists dir false; EvMkdirAll dir (Some e)])
             (heap s1) (next s1) (globals s1))
       (Some (Wrap e ("failed to create dir " ++ dir))).
Proof.
  intros Hinfo Hex Hmk paths.
  unfold CompilerFromNet, bind at 1. rewrite Hinfo.
  unfold map_read, PrintlnPaths, ensure_dir, exists_, MkdirAll, cur_world, log_call, ret, bind.
  cbv beta iota zeta. simpl. rewrite Hex; simpl. rewrite Hmk; simpl.
  rewrite <- !app_assoc; reflexivity.
Qed.

(** When the install directory exists and the cache directory is missing
    and cannot be created, [CompilerFromNet] returns the wrapped error
    without downloading. *)
Theorem CompilerFromNet_cache_dir_error cacheDir version dir s s1 pkg fn w2 e :
  GetCompilerPackageInfo World GOOS GOOS version s = Done s1 (pkg, fn, None) ->
  env_exists env (world s1) dir = true ->
  env_exists env (world s1) cacheDir = false ->
  env_MkdirAll env (world s1) cacheDir = (w2, Some e) ->
  let paths : gomap := match Paths pkg with Some l => default [] (heap s1 !! l) | None => [] end in
  CompilerFromNet World GOOS env cacheDir version dir s =
  Done (mkSt w2 (trace s1 ++ [EvPrintPaths paths; EvExists dir true; EvExists cacheDir false;
                              EvMkdirAll cacheDir (Some e)])
             (heap s1) (next s1) (globals s1))
       (Some (Wrap e ("failed to create cache " ++ cacheDir))).
Proof.
  intros Hinfo Hex Hexc Hmk paths.
  unfold CompilerFromNet, bind at 1. rewrite Hinfo.
  unfold map_read, PrintlnPaths, ensure_dir, exists_, MkdirAll, cur_world, log_call, ret, bind.
  cbv beta iota zeta. simpl. rewrite Hex; simpl. rewrite Hexc; simpl. rewrite Hmk; simpl.
  rewrite <- !app_assoc; reflexivity.
Qed.

(** When [CompilerFromNet] runs the extraction on the downloaded file [p],
    its result is the extraction's: nil, or the error wrapped as
    "failed to unzip package p". *)
Theorem CompilerFromNet_extract_result cacheDir version dir s s1 pkg fn :
  GetCompilerPackageInfo World GOOS GOOS version s = Done s1 (pkg, fn, None) ->
  let o := CompilerFromNet World GOOS env cacheDir version dir s in
  let paths : gomap := match Paths pkg with Some l => default [] (heap s1 !! l) | None => [] end in
  forall m p r,
    In (EvExtract m p dir paths r) (trace (out_state o)) ->
    ~ In (EvExtract m p dir paths r) (trace s1) ->
    o = Done (out_state o) (option_map (fun e => Wrap e ("failed to unzip package " ++ p)) r).
Proof.
  intros Hinfo o paths m p r. subst o.
  unfold CompilerFromNet. erewrite bind_Done; [|exact Hinfo].
  unfold map_read, PrintlnPaths, ensure_dir, exists_, MkdirAll, FromNet, call_Method,
    cur_world, log_call, ret.
  unfold bind. cbv beta iota zeta. simpl. fold paths.
  destruct_env_calls.
  all: intros Hin Hnot; simpl in Hin; rewrite <- !app_assoc in Hin;
       apply in_app_or in Hin as [Hin|Hin]; [contradiction|].
  all: repeat (destruct Hin as [Hin|Hin]; [try discriminate|]); try contradiction.
  all: injection Hin; intros; subst; reflexivity.
Qed.

End CompilerErrors.

(** ** Strings: [filepath.Ext] is a suffix, [strings.TrimSuffix] removes it *)

Lemma str_app_cons (c : ascii) (x y : string) : (String c x ++ y)%string = String c (x ++ y).
Proof. reflexivity. Qed.

Lemma str_app_nil_r (x : string) : (x ++ "")%string = x.
Proof. induction x as [|c x IH]; [reflexivity | exact (f_equal (String c) IH)]. Qed.

Lemma str_app_assoc (x y z : string) : (x ++ (y ++ z))%string = ((x ++ y) ++ z)%string.
Proof. induction x as [|c x IH]; [reflexivity | exact (f_equal (String c) IH)]. Qed.

Lemma str_length_app (x y : string) : String.length (x ++ y) = String.length x + String.length y.
Proof. induction x as [|c x IH]; [reflexivity | exact (f_equal S IH)]. Qed.

Lemma rev_string_acc (x acc : string) :
  GoString.rev_string x acc = (GoString.rev_string x "" ++ acc)%string.
Proof.
  revert acc; induction x as [|c x IH]; intros acc; simpl; [reflexivity|].
  rewrite (IH (String c acc)), (IH (String c "")), <- str_app_assoc; reflexivity.
Qed.

Lemma rev_string_app (x y acc : string) :
  GoString.rev_string (x ++ y) acc = GoString.rev_string y (GoString.rev_string x acc).
Proof. revert acc; induction x as [|c x IH]; intros acc; [reflexivity|]. rewrite str_app_cons; simpl; apply IH. Qed.

Lemma rev_string_rev_string (x acc acc2 : string) :
  GoString.rev_string (GoString.rev_string x acc) acc2 = GoString.rev_string acc (x ++ acc2).
Proof. revert acc; induction x as [|c x IH]; intros acc; simpl; [reflexivity|]. rewrite IH; reflexivity. Qed.

Lemma ext_rev_suffix (rs acc : string) :
  exists x, (GoString.rev_string rs "" ++ acc)%string = (x ++ UnixPath.ext_rev rs acc)%string.
Proof.
  revert acc; induction rs as [|c rs IH]; intros acc; simpl.
  - exists acc; rewrite str_app_nil_r; reflexivity.
  - destruct (UnixPath.is_sep c).
    + exists (GoString.rev_string rs (String c "") ++ acc)%string; rewrite str_app_nil_r; reflexivity.
    + destruct (Ascii.eqb c "."%char).
      * exists (GoString.rev_string rs ""); rewrite rev_string_acc, <- str_app_assoc; reflexivity.
      * destruct (IH (String c acc)) as [x Hx]; exists x.
        rewrite rev_string_acc, <- str_app_assoc; exact Hx.
Qed.

Lemma Ext_suffix (p : string) : exists x, p = (x ++ UnixPath.Ext p)%string.
Proof.
  destruct (ext_rev_suffix (GoString.rev_string p "") "") as [x Hx].
  exists x; unfold UnixPath.Ext; rewrite <- Hx, rev_string_rev_string, !str_app_nil_r; reflexivity.
Qed.

Lemma substring_app_l (x y : string) : substring 0 (String.length x) (x ++ y) = x.
Proof. induction x as [|c x IH]; [destruct y; reflexivity | rewrite str_app_cons; simpl; rewrite IH; reflexivity]. Qed.

Lemma substring_all (y : string) : substring 0 (String.length y) y = y.
Proof. induction y as [|c y IH]; [reflexivity | simpl; rewrite IH; reflexivity]. Qed.

Lemma substring_app_r (x y : string) : substring (String.length x) (String.length y) (x ++ y) = y.
Proof.
  induction x as [|c x IH]; [apply substring_all|].
  rewrite str_app_cons; simpl; exact IH.
Qed.

Lemma TrimSuffix_app (x y : string) : Strings.TrimSuffix (x ++ y) y = x.
Proof.
  unfold Strings.TrimSuffix, Strings.HasSuffix.
  rewrite str_length_app, Nat.add_sub, substring_app_r, String.eqb_refl.
  replace (Nat.leb (String.length y) (String.length x + String.length y)) with true
    by (symmetry; apply Nat.leb_le; lia).
  simpl; apply substring_app_l.
Qed.

Lemma Ext_pwn (x : string) : UnixPath.Ext (x ++ ".pwn") = ".pwn".
Proof. unfold UnixPath.Ext; rewrite rev_string_app; reflexivity. Qed.

Section RookProofs.
Variable W : Type.
Variable renv : REnv W.

Ltac destruct_renv :=
  repeat (match goal with
    | |- context [renv_WriteFile ?e ?w ?p ?c] => destruct (renv_WriteFile e w p c) as [? [?|]]
    | |- context [renv_WriteDefinition ?e ?w ?p] => destruct (renv_WriteDefinition e w p) as [? [?|]]
    | |- context [renv_EnsureDependencies ?e ?w ?p] => destruct (renv_EnsureDependencies e w p) as [? ?]
    | |- context [answers.GitIgnore ?a] => destruct (answers.GitIgnore a)
    | |- context [answers.Readme ?a] => destruct (answers.Readme a)
    | |- context [answers.StdLib ?a] => destruct (answers.StdLib a)
    | |- context [String.eqb (answers.Editor ?a) "vscode"] => destruct (String.eqb (answers.Editor a) "vscode")
    end; simpl).

Ltac close_list := simpl; rewrite <- ?app_assoc; simpl; reflexivity.

Ltac close_shape :=
  let t := (do 2 eexists; close_list) in
  first [ exists None; first [ exists None; t
                             | match goal with e : error |- _ => exists (Some e); t end ]
        | match goal with e : error |- _ =>
            exists (Some e);
            first [ exists None; t
                  | match goal with e' : error |- _ => exists (Some e'); t end ] end ].

Lemma init_after_survey_shape dir a s :
  exists (rf rw r : option error) (w' : W),
    init_after_survey W renv dir a s =
    Done (mkRSt w' (rtrace s ++ entry_trace dir a rf ++ spawn_trace a ++
                    [RWriteDefinition (init_package dir a) rw] ++ erro_trace rw ++
                    [RWait; REnsureDependencies (init_package dir a) r])) r.
Proof.
  unfold init_after_survey, set_entry, init_package, entry_trace, spawn_trace, erro_trace.
  destruct (String.eqb (answers.Entry a) "") eqn:He; simpl.
  - destruct (Nat.ltb 0 (length (answers.EntryGenerate a))) eqn:Hl; simpl.
    + unfold bind at 1, ioutil_WriteFile, bind, rworld_now, rlog, ret. simpl.
      destruct (renv_WriteFile renv (rworld s) (UnixPath.Join dir "test.pwn")
                  (generated_test (answers.EntryGenerate a))) as [w1 [e1|]]; simpl.
      all: unfold color_Red, go_getTemplateFile, skip, WriteDefinition, print_Erro, wg_Wait,
             EnsureDependencies, rworld_now, rlog, ret, bind; simpl.
      all: destruct_renv.
      all: close_shape.
    + unfold go_getTemplateFile, skip, WriteDefinition, print_Erro, wg_Wait,
        EnsureDependencies, rworld_now, rlog, ret, bind; simpl.
      destruct_renv.
      all: close_shape.
  - destruct (entry_names (answers.Entry a)) as [en ou].
    destruct (negb (String.eqb (UnixPath.Ext (answers.Entry a)) "") &&
              negb (String.eqb (UnixPath.Ext (answers.Entry a)) ".pwn")); simpl.
    all: unfold print_Warn, go_getTemplateFile, skip, WriteDefinition, print_Erro, wg_Wait,
           EnsureDependencies, rworld_now, rlog, ret, bind; simpl.
    all: destruct_renv.
    all: close_shape.
Qed.

Lemma walk_files_good dir vs P I :
  forallb (good_visit dir) vs = true ->
  walk_files dir vs P I =
  Some ((P ++ walk_rels dir vs ".pwn")%list, (I ++ walk_rels dir vs ".inc")%list, None).
Proof.
  revert P I; induction vs as [|[p [[|]|]] vs IH]; intros P I Hg; simpl in *.
  - rewrite !app_nil_r; reflexivity.
  - apply IH; exact Hg.
  - destruct (UnixPath.Rel dir p) as [rel [e|]]; simpl in *; [discriminate|].
    destruct (String.eqb (UnixPath.Ext p) ".pwn") eqn:E1.
    + apply String.eqb_eq in E1; rewrite E1; simpl.
      rewrite IH by exact Hg; rewrite <- !app_assoc; reflexivity.
    + destruct (String.eqb (UnixPath.Ext p) ".inc") eqn:E2; simpl.
      * rewrite IH by exact Hg; rewrite <- !app_assoc; reflexivity.
      * rewrite IH by exact Hg; reflexivity.
  - discriminate.
Qed.

Lemma walk_files_nil_info dir pre p post P I :
  forallb (good_visit dir) pre = true ->
  walk_files dir (pre ++ (p, None) :: post)%list P I = None.
Proof.
  revert P I; induction pre as [|[q [[|]|]] pre IH]; intros P I Hg; simpl in *.
  - reflexivity.
  - apply IH; exact Hg.
  - destruct (UnixPath.Rel dir q) as [rel [e|]]; simpl in *; [discriminate|].
    destruct (String.eqb (UnixPath.Ext q) ".pwn"); [|destruct (String.eqb (UnixPath.Ext q) ".inc")];
      apply IH; exact Hg.
  - discriminate.
Qed.

Lemma walk_files_rel_error dir pre p post P I rel e :
  forallb (good_visit dir) pre = true ->
  UnixPath.Rel dir p = (rel, Some e) ->
  exists P' I', walk_files dir (pre ++ (p, Some false) :: post)%list P I = Some (P', I', Some e).
Proof.
  intros Hg Hr; revert P I; induction pre as [|[q [[|]|]] pre IH]; intros P I; simpl in *.
  - rewrite Hr; eauto.
  - apply IH; exact Hg.
  - destruct (UnixPath.Rel dir q) as [rel' [e'|]]; simpl in *; [discriminate|].
    destruct (String.eqb (UnixPath.Ext q) ".pwn"); [|destruct (String.eqb (UnixPath.Ext q) ".inc")];
      apply IH; exact Hg.
  - discriminate.
Qed.

Lemma Init_after_walk dir s :
  renv_Exists renv (rworld s) dir = true ->
  Init W renv dir s =
  let vs := renv_Walk renv (rworld s) dir in
  let s1 := mkRSt (rworld s) (rtrace s ++ [RExists dir true; RWalk dir vs]) in
  match walk_files dir vs [] [] with
  | None => Panicked s1 "invalid memory address or nil pointer dereference"
  | Some (_, _, Some e) => Done s1 (Some e)
  | Some (pwnFiles, incFiles, None) =>
      let qs := init_questions (UnixPath.Base dir) pwnFiles incFiles in
      let '(w1, r) := renv_Ask renv (rworld s) qs in
      let s2 := mkRSt w1 (rtrace s ++ [RExists dir true; RWalk dir vs;
                                       RGreen (found_message pwnFiles incFiles); RAsk qs r]) in
      match snd r with
      | Some e => Done s2 (Some e)
      | None => init_after_survey W renv dir (fst r) s2
      end
  end.
Proof.
  intros Hex.
  unfold Init, util_Exists, filepath_Walk, color_Green, survey_Ask, go_panic,
    bind, ret, rworld_now, rlog; simpl.
  rewrite Hex; simpl.
  rewrite <- app_assoc; simpl.
  destruct (walk_files dir (renv_Walk renv (rworld s) dir) [] []) as [[[P I] [e|]]|]; simpl.
  - reflexivity.
  - unfold found_message.
    destruct (renv_Ask renv (rworld s) (init_questions (UnixPath.Base dir) P I)) as [w1 [a [e|]]];
      simpl; rewrite <- !app_assoc; reflexivity.
  - unfold go_panic; reflexivity.
Qed.

(** When [util.Exists(dir)] is false, [Init] returns "directory does not exist"
    right after that check: no walk, no prompt, no write. *)
Theorem Init_missing_dir dir s :
  renv_Exists renv (rworld s) dir = false ->
  Init W renv dir s =
  Done (mkRSt (rworld s) (rtrace s ++ [RExists dir false])) (Some (Errorf "directory does not exist")).
Proof.
  intros Hex.
  unfold Init, util_Exists, bind, ret, rworld_now, rlog; simpl.
  rewrite Hex; reflexivity.
Qed.

(** A nil [FileInfo] handed to the walk function (after visits that pass)
    makes [Init] panic on [info.IsDir()] before it prints or prompts anything. *)
Theorem Init_nil_info_panics dir s pre p post :
  renv_Exists renv (rworld s) dir = true ->
  renv_Walk renv (rworld s) dir = (pre ++ (p, None) :: post)%list ->
  forallb (good_visit dir) pre = true ->
  Init W renv dir s =
  Panicked (mkRSt (rworld s) (rtrace s ++ [RExists dir true;
                                          RWalk dir (pre ++ (p, None) :: post)%list]))
           "invalid memory address or nil pointer dereference".
Proof.
  intros Hex Hw Hg.
  rewrite (Init_after_walk dir s Hex); cbv zeta.
  rewrite Hw, (walk_files_nil_info dir pre p post [] [] Hg); reflexivity.
Qed.

(** When [filepath.Rel] fails on a visited file, [Walk] stops there and
    [Init] returns that error, before printing the counts or prompting. *)
Theorem Init_rel_error_returned dir s pre p post rel e :
  renv_Exists renv (rworld s) dir = true ->
  renv_Walk renv (rworld s) dir = (pre ++ (p, Some false) :: post)%list ->
  forallb (good_visit dir) pre = true ->
  UnixPath.Rel dir p = (rel, Some e) ->
  Init W renv dir s =
  Done (mkRSt (rworld s) (rtrace s ++ [RExists dir true;
                                      RWalk dir (pre ++ (p, Some false) :: post)%list]))
       (Some e).
Proof.
  intros Hex Hw Hg Hr.
  rewrite (Init_after_walk dir s Hex); cbv zeta.
  destruct (walk_files_rel_error dir pre p post [] [] rel e Hg Hr) as [P [I HP]].
  rewrite Hw, HP; reflexivity.
Qed.

(** When every visit passes, [Init] prints the numbers of visited files
    with extension [.pwn] and [.inc], then asks the questions built from
    their relative paths in walk order, with [filepath.Base(dir)] as the
    default package name. *)
Theorem Init_asks_about_found_files dir s :
  renv_Exists renv (rworld s) dir = true ->
  forallb (good_visit dir) (renv_Walk renv (rworld s) dir) = true ->
  let vs := renv_Walk renv (rworld s) dir in
  let pwnFiles := walk_rels dir vs ".pwn" in
  let incFiles := walk_rels dir vs ".inc" in
  let qs := init_questions (UnixPath.Base dir) pwnFiles incFiles in
  exists st r t,
    Init W renv dir s = Done st r /\
    rtrace st = (rtrace s ++ [RExists dir true; RWalk dir vs;
                             RGreen (found_message pwnFiles incFiles);
                             RAsk qs (snd (renv_Ask renv (rworld s) qs))] ++ t)%list.
Proof.
  intros Hex Hg; cbv zeta.
  rewrite (Init_after_walk dir s Hex); cbv zeta.
  rewrite (walk_files_good dir _ [] [] Hg); simpl.
  destruct (renv_Ask renv (rworld s)
              (init_questions (UnixPath.Base dir) (walk_rels dir (renv_Walk renv (rworld s) dir) ".pwn")
                 (walk_rels dir (renv_Walk renv (rworld s) dir) ".inc"))) as [w1 [a [e|]]]; simpl.
  - exists (mkRSt w1 (rtrace s ++ [RExists dir true; RWalk dir (renv_Walk renv (rworld s) dir);
        RGreen (found_message (walk_rels dir (renv_Walk renv (rworld s) dir) ".pwn")
                  (walk_rels dir (renv_Walk renv (rworld s) dir) ".inc"));
        RAsk (init_questions (UnixPath.Base dir) (walk_rels dir (renv_Walk renv (rworld s) dir) ".pwn")
                  (walk_rels dir (renv_Walk renv (rworld s) dir) ".inc")) (a, Some e)])), (Some e), [].
    split; [reflexivity|]; simpl. rewrite ?app_nil_r, <- ?app_assoc; reflexivity.
  - match goal with
    | |- context [init_after_survey W renv dir a ?st] =>
        destruct (init_after_survey_shape dir a st) as [rf [rw [r [w' Hs]]]]
    end.
    rewrite Hs. do 3 eexists; split; [reflexivity|]; simpl.
    rewrite <- !app_assoc; reflexivity.
Qed.

(** When [survey.Ask] fails, [Init] returns its error: nothing is written,
    no template fetch is started, no package definition is written and no
    dependency is ensured. *)
Theorem Init_ask_error_returned dir s w1 a e :
  renv_Exists renv (rworld s) dir = true ->
  forallb (good_visit dir) (renv_Walk renv (rworld s) dir) = true ->
  let vs := renv_Walk renv (rworld s) dir in
  let pwnFiles := walk_rels dir vs ".pwn" in
  let incFiles := walk_rels dir vs ".inc" in
  let qs := init_questions (UnixPath.Base dir) pwnFiles incFiles in
  renv_Ask renv (rworld s) qs = (w1, (a, Some e)) ->
  Init W renv dir s =
  Done (mkRSt w1 (rtrace s ++ [RExists dir true; RWalk dir vs;
                               RGreen (found_message pwnFiles incFiles); RAsk qs (a, Some e)]))
       (Some e).
Proof.
  intros Hex Hg; cbv zeta; intros Ha.
  rewrite (Init_after_walk dir s Hex); cbv zeta.
  rewrite (walk_files_good dir _ [] [] Hg); simpl.
  rewrite Ha; reflexivity.
Qed.

(** The run of [Init] after the survey answered [a]. *)
Lemma Init_after_survey_run dir s w1 a :
  renv_Exists renv (rworld s) dir = true ->
  forallb (good_visit dir) (renv_Walk renv (rworld s) dir) = true ->
  let vs := renv_Walk renv (rworld s) dir in
  let pwnFiles := walk_rels dir vs ".pwn" in
  let incFiles := walk_rels dir vs ".inc" in
  let qs := init_questions (UnixPath.Base dir) pwnFiles incFiles in
  renv_Ask renv (rworld s) qs = (w1, (a, None)) ->
  Init W renv dir s =
  init_after_survey W renv dir a
    (mkRSt w1 (rtrace s ++ [RExists dir true; RWalk dir vs;
                            RGreen (found_message pwnFiles incFiles); RAsk qs (a, None)])).
Proof.
  intros Hex Hg; cbv zeta; intros Ha.
  rewrite (Init_after_walk dir s Hex); cbv zeta.
  rewrite (walk_files_good dir _ [] [] Hg); simpl.
  rewrite Ha; reflexivity.
Qed.

(** After a successful survey, [Init] writes the package definition, prints
    its error if any, waits for the template goroutines, and returns what
    [EnsureDependencies] returns for the same package. *)
Theorem Init_returns_EnsureDependencies dir s w1 a :
  renv_Exists renv (rworld s) dir = true ->
  forallb (good_visit dir) (renv_Walk renv (rworld s) dir) = true ->
  let vs := renv_Walk renv (rworld s) dir in
  let qs := init_questions (UnixPath.Base dir) (walk_rels dir vs ".pwn") (walk_rels dir vs ".inc") in
  renv_Ask renv (rworld s) qs = (w1, (a, None)) ->
  exists t rw r w',
    Init W renv dir s =
    Done (mkRSt w' (rtrace s ++ t ++ [RWriteDefinition (init_package dir a) rw] ++
                    match rw with Some e => [RErro e] | None => [] end ++
                    [RWait; REnsureDependencies (init_package dir a) r])) r.
Proof.
  intros Hex Hg; cbv zeta; intros Ha.
  rewrite (Init_after_survey_run dir s w1 a Hex Hg Ha).
  match goal with
    | |- context [init_after_survey W renv dir a ?st] =>
        destruct (init_after_survey_shape dir a st) as [rf [rw [r [w' Hs]]]]
    end.
  rewrite Hs; simpl.
  exists ([RExists dir true; RWalk dir (renv_Walk renv (rworld s) dir);
           RGreen (found_message (walk_rels dir (renv_Walk renv (rworld s) dir) ".pwn")
                     (walk_rels dir (renv_Walk renv (rworld s) dir) ".inc"));
           RAsk (init_questions (UnixPath.Base dir) (walk_rels dir (renv_Walk renv (rworld s) dir) ".pwn")
                     (walk_rels dir (renv_Walk renv (rworld s) dir) ".inc")) (a, None)] ++
           entry_trace dir a rf ++ spawn_trace a)%list, rw, r, w'.
  unfold erro_trace; rewrite <- !app_assoc; reflexivity.
Qed.

Ltac after_survey_trace Hex Hg Ha :=
  rewrite (Init_after_survey_run _ _ _ _ Hex Hg Ha);
  match goal with
  | |- context [init_after_survey W renv ?dir ?a ?st] =>
      let rf := fresh "rf" in let rw := fresh "rw" in let r := fresh "r" in
      let w' := fresh "w'" in let Hs := fresh "Hs" in
      destruct (init_after_survey_shape dir a st) as [rf [rw [r [w' Hs]]]];
      rewrite Hs
  end;
  do 2 eexists; split; [reflexivity|]; simpl;
  unfold spawned, written, warnings; rewrite !flat_map_app; simpl;
  unfold entry_trace, spawn_trace, erro_trace.

(** After a successful survey, the template fetches [Init] starts are
    [.gitignore], [README.md] and [.vscode/tasks.json], each exactly when
    its answer asks for it, in that order. *)
Theorem Init_spawns_chosen_templates dir s w1 a :
  renv_Exists renv (rworld s) dir = true ->
  forallb (good_visit dir) (renv_Walk renv (rworld s) dir) = true ->
  let vs := renv_Walk renv (rworld s) dir in
  let qs := init_questions (UnixPath.Base dir) (walk_rels dir vs ".pwn") (walk_rels dir vs ".inc") in
  renv_Ask renv (rworld s) qs = (w1, (a, None)) ->
  exists st r,
    Init W renv dir s = Done st r /\
    spawned (rtrace st) =
    (spawned (rtrace s) ++
     (if answers.GitIgnore a then [".gitignore"] else []) ++
     (if answers.Readme a then ["README.md"] else []) ++
     (if String.eqb (answers.Editor a) "vscode" then [".vscode/tasks.json"] else []))%list.
Proof.
  intros Hex Hg; cbv zeta; intros Ha.
  after_survey_trace Hex Hg Ha.
  rewrite !flat_map_app.
  destruct (negb (String.eqb (answers.Entry a) "")); simpl;
    [destruct (_ && _) | destruct (Nat.ltb _ _); [destruct rf|]]; simpl;
    destruct rw; simpl;
    destruct (answers.GitIgnore a), (answers.Readme a), (String.eqb (answers.Editor a) "vscode");
    simpl; rewrite ?app_nil_r; reflexivity.
Qed.


(** [Init] prints the three entry warnings exactly when the entry answer is
    not empty and its extension is neither empty nor [.pwn]. *)
Theorem Init_entry_warnings dir s w1 a :
  renv_Exists renv (rworld s) dir = true ->
  forallb (good_visit dir) (renv_Walk renv (rworld s) dir) = true ->
  let vs := renv_Walk renv (rworld s) dir in
  let qs := init_questions (UnixPath.Base dir) (walk_rels dir vs ".pwn") (walk_rels dir vs ".inc") in
  renv_Ask renv (rworld s) qs = (w1, (a, None)) ->
  let ext := UnixPath.Ext (answers.Entry a) in
  exists st r,
    Init W renv dir s = Done st r /\
    warnings (rtrace st) =
    (warnings (rtrace s) ++
     if negb (String.eqb (answers.Entry a) "") && negb (String.eqb ext "") &&
        negb (String.eqb ext ".pwn")
     then ["Entry point is not a .pwn file - it's advised to use a .pwn file as the compiled script.";
           "If you are writing a library and not a gamemode or filterscript,";
           "it's good to make a separate .pwn file that #includes the .inc file of your library."]
     else [])%list.
Proof.
  intros Hex Hg; cbv zeta; intros Ha.
  after_survey_trace Hex Hg Ha.
  rewrite !flat_map_app.
  destruct (String.eqb (answers.Entry a) ""); simpl;
    [destruct (Nat.ltb _ _); [destruct rf|] | destruct (_ && _)]; simpl;
    destruct rw; simpl;
    destruct (answers.GitIgnore a), (answers.Readme a), (String.eqb (answers.Editor a) "vscode");
    simpl; rewrite ?app_nil_r; reflexivity.
Qed.

(** A non-empty entry answer keeps its stem: the package entry and output
    are the answer with its extension replaced by [.pwn] and [.amx], and an
    answer ending in [.pwn] is kept as it is. *)
Theorem init_package_entry dir a :
  answers.Entry a <> "" ->
  let pkg := init_package dir a in
  exists stem,
    (stem ++ UnixPath.Ext (answers.Entry a))%string = answers.Entry a /\
    types.Entry pkg = (stem ++ ".pwn")%string /\
    types.Output pkg = (stem ++ ".amx")%string /\
    UnixPath.Ext (types.Entry pkg) = ".pwn" /\
    (UnixPath.Ext (answers.Entry a) = ".pwn" -> types.Entry pkg = answers.Entry a).
Proof.
  intros Hne; cbv zeta.
  unfold init_package, entry_names.
  apply String.eqb_neq in Hne; rewrite Hne; simpl.
  destruct (Ext_suffix (answers.Entry a)) as [x Hx].
  assert (Ht : Strings.TrimSuffix (answers.Entry a) (UnixPath.Ext (answers.Entry a)) = x)
    by (rewrite Hx at 1; apply TrimSuffix_app).
  rewrite Ht; exists x; simpl.
  split; [symmetry; exact Hx|].
  split; [reflexivity|]. split; [reflexivity|]. split; [apply Ext_pwn|].
  intros He; simpl; rewrite <- He; exact (eq_sym Hx).
Qed.

Ltac run_template :=
  unfold getTemplateFile, http_Get, util_Exists, os_MkdirAll, os_Create, io_Copy, file_Close,
    body_Close, print_Erro, skip, bind, ret, rworld_now, rlog; simpl.

(** When [http.Get] fails, [getTemplateFile] returns its error after that
    call alone: no check, no creation, no body to close. *)
Theorem getTemplateFile_get_error dir filename s w1 body e :
  renv_Get renv (rworld s) (template_url filename) = (w1, (body, Some e)) ->
  getTemplateFile W renv dir filename s =
  Done (mkRSt w1 (rtrace s ++ [RGet (template_url filename) (body, Some e)])) (Some e).
Proof. intros Hg; run_template; rewrite Hg; reflexivity. Qed.

(** The run of [getTemplateFile] after [http.Get] returned [body]. *)
Lemma getTemplateFile_after_get dir filename s w1 body :
  renv_Get renv (rworld s) (template_url filename) = (w1, (body, None)) ->
  let url := template_url filename in
  let ex := renv_Exists renv w1 (UnixPath.Join dir filename) in
  let target := if ex then "init-" ++ UnixPath.Join dir filename else UnixPath.Join dir filename in
  let '(w2, m) := renv_MkdirAll renv w1 (UnixPath.Dir target) in
  let pre := (rtrace s ++ [RGet url (body, None); RExists (UnixPath.Join dir filename) ex;
                           RMkdirAll (UnixPath.Dir target) m])%list in
  getTemplateFile W renv dir filename s =
  match m with
  | Some e => Done (mkRSt (renv_CloseBody renv w2 url) (pre ++ [RCloseBody url])) (Some e)
  | None =>
      let '(w3, c) := renv_Create renv w2 target in
      match c with
      | Some e => Done (mkRSt (renv_CloseBody renv w3 url) (pre ++ [RCreate target c; RCloseBody url]))
                       (Some e)
      | None =>
          let '(w4, cp) := renv_Copy renv w3 target body in
          let '(w5, r) := renv_Close renv w4 target in
          Done (mkRSt (renv_CloseBody renv w5 url)
                  (pre ++ [RCreate target None; RCopy target body cp; RClose target r] ++
                   match r with Some e => [RErro e] | None => [] end ++ [RCloseBody url])) r
      end
  end.
Proof.
  intros Hg; cbv zeta; run_template; rewrite Hg; simpl.
  set (J := UnixPath.Join dir filename).
  set (target := if renv_Exists renv w1 J then ("init-" ++ J)%string else J).
  destruct (renv_MkdirAll renv w1 (UnixPath.Dir target)) as [w2 [e|]]; simpl.
  - rewrite <- !app_assoc; reflexivity.
  - destruct (renv_Create renv w2 target) as [w3 [e|]]; simpl.
    + rewrite <- !app_assoc; reflexivity.
    + destruct (renv_Copy renv w3 target body) as [w4 cp]; simpl.
      destruct (renv_Close renv w4 target) as [w5 [e|]]; simpl;
        rewrite <- !app_assoc; reflexivity.
Qed.

(** When [filepath.Join(dir, filename)] exists, [getTemplateFile] creates
    no file but, at most, ["init-"] followed by that path. *)
Theorem getTemplateFile_never_overwrites dir filename s w1 body :
  renv_Get renv (rworld s) (template_url filename) = (w1, (body, None)) ->
  renv_Exists renv w1 (UnixPath.Join dir filename) = true ->
  exists st r,
    getTemplateFile W renv dir filename s = Done st r /\
    (created (rtrace st) = created (rtrace s) \/
     created (rtrace st) = (created (rtrace s) ++ [("init-" ++ UnixPath.Join dir filename)%string])%list).
Proof.
  intros Hg Hex.
  pose proof (getTemplateFile_after_get dir filename s w1 body Hg) as H; cbv zeta in H.
  rewrite Hex in H.
  destruct (renv_MkdirAll _ _ _) as [w2 [e|]];
    [|destruct (renv_Create _ _ _) as [w3 [e|]];
      [|destruct (renv_Copy _ _ _ _) as [w4 cp]; destruct (renv_Close _ _ _) as [w5 r]]];
    rewrite H; do 2 eexists; (split; [reflexivity|]).
  - left; unfold created; cbn [rtrace]; rewrite !flat_map_app; simpl; rewrite ?app_nil_r; reflexivity.
  - right; unfold created; cbn [rtrace]; rewrite !flat_map_app; simpl; rewrite ?app_nil_r; reflexivity.
  - right; unfold created; cbn [rtrace]; rewrite !flat_map_app; simpl; destruct r; simpl;
      rewrite ?app_nil_r; reflexivity.
Qed.

(** When [os.MkdirAll] fails on the target's directory, [getTemplateFile]
    returns that error and closes the body, without creating the file. *)
Theorem getTemplateFile_mkdir_error dir filename s w1 body w2 e :
  renv_Get renv (rworld s) (template_url filename) = (w1, (body, None)) ->
  let J := UnixPath.Join dir filename in
  let ex := renv_Exists renv w1 J in
  let target := if ex then "init-" ++ J else J in
  renv_MkdirAll renv w1 (UnixPath.Dir target) = (w2, Some e) ->
  getTemplateFile W renv dir filename s =
  Done (mkRSt (renv_CloseBody renv w2 (template_url filename))
          (rtrace s ++ [RGet (template_url filename) (body, None); RExists J ex;
                        RMkdirAll (UnixPath.Dir target) (Some e); RCloseBody (template_url filename)]))
       (Some e).
Proof.
  intros Hg; cbv zeta; intros Hm.
  pose proof (getTemplateFile_after_get dir filename s w1 body Hg) as H; cbv zeta in H.
  rewrite Hm in H; rewrite H, <- app_assoc; reflexivity.
Qed.

(** Once the file is created, [getTemplateFile] returns the result of
    [file.Close()], whatever [io.Copy] returned: the deferred function
    overwrites the named result. *)
Theorem getTemplateFile_returns_close_error dir filename s w1 body w2 w3 w4 cp w5 r :
  renv_Get renv (rworld s) (template_url filename) = (w1, (body, None)) ->
  let J := UnixPath.Join dir filename in
  let ex := renv_Exists renv w1 J in
  let target := if ex then "init-" ++ J else J in
  renv_MkdirAll renv w1 (UnixPath.Dir target) = (w2, None) ->
  renv_Create renv w2 target = (w3, None) ->
  renv_Copy renv w3 target body = (w4, cp) ->
  renv_Close renv w4 target = (w5, r) ->
  getTemplateFile W renv dir filename s =
  Done (mkRSt (renv_CloseBody renv w5 (template_url filename))
          (rtrace s ++ [RGet (template_url filename) (body, None); RExists J ex;
                        RMkdirAll (UnixPath.Dir target) None; RCreate target None;
                        RCopy target body cp; RClose target r] ++
           match r with Some e => [RErro e] | None => [] end ++
           [RCloseBody (template_url filename)])) r.
Proof.
  intros Hg; cbv zeta; intros Hm Hc Hcp Hcl.
  pose proof (getTemplateFile_after_get dir filename s w1 body Hg) as H; cbv zeta in H.
  rewrite Hm, Hc, Hcp, Hcl in H; rewrite H, <- !app_assoc; reflexivity.
Qed.

(** After a successful [http.Get], [getTemplateFile] closes the response
    body exactly once, as its last call. *)
Theorem getTemplateFile_closes_body_last dir filename s w1 body :
  renv_Get renv (rworld s) (template_url filename) = (w1, (body, None)) ->
  exists st r t,
    getTemplateFile W renv dir filename s = Done st r /\
    rtrace st = (rtrace s ++ [RGet (template_url filename) (body, None)] ++ t ++
                 [RCloseBody (template_url filename)])%list /\
    ~ In (RCloseBody (template_url filename)) t.
Proof.
  intros Hg.
  pose proof (getTemplateFile_after_get dir filename s w1 body Hg) as H; cbv zeta in H.
  destruct (renv_MkdirAll _ _ _) as [w2 [e|]];
    [|destruct (renv_Create _ _ _) as [w3 [e|]];
      [|destruct (renv_Copy _ _ _ _) as [w4 cp]; destruct (renv_Close _ _ _) as [w5 [e|]]]];
    rewrite H; do 2 eexists.
  - eexists [RExists _ _; RMkdirAll _ _].
    split; [reflexivity|]; split; [cbn [rtrace]; rewrite <- !app_assoc; reflexivity|].
    simpl; intros [Hx|[Hx|[]]]; discriminate.
  - eexists [RExists _ _; RMkdirAll _ _; RCreate _ _].
    split; [reflexivity|]; split; [cbn [rtrace]; rewrite <- !app_assoc; reflexivity|].
    simpl; intros [Hx|[Hx|[Hx|[]]]]; discriminate.
  - eexists [RExists _ _; RMkdirAll _ _; RCreate _ _; RCopy _ _ _; RClose _ _; RErro _].
    split; [reflexivity|]; split; [cbn [rtrace]; rewrite <- !app_assoc; reflexivity|].
    simpl; intros [Hx|[Hx|[Hx|[Hx|[Hx|[Hx|[]]]]]]]; discriminate.
  - eexists [RExists _ _; RMkdirAll _ _; RCreate _ _; RCopy _ _ _; RClose _ _].
    split; [reflexivity|]; split; [cbn [rtrace]; rewrite <- !app_assoc; reflexivity|].
    simpl; intros [Hx|[Hx|[Hx|[Hx|[Hx|[]]]]]]; discriminate.
Qed.

End RookProofs.

Lemma Init_missing_dir_witness :
  renv_Exists (sample_init_env (sample_answers, None)) tt "/home/u/other" = false /\
  Init unit (sample_init_env (sample_answers, None)) "/home/u/other" (mkRSt tt []) =
  Done (mkRSt tt ([] ++ [RExists "/home/u/other" false])) (Some (Errorf "directory does not exist")).
Proof.
  split; [reflexivity|].
  apply (Init_missing_dir unit (sample_init_env (sample_answers, None)) "/home/u/other" (mkRSt tt [])).
  reflexivity.
Defined.

Lemma Init_nil_info_panics_witness :
  let env := fixed_renv (fun _ => true)
               [("/home/u/pkg", Some true); ("/home/u/pkg/a.pwn", Some false); ("/home/u/pkg/b", None)]
               (sample_answers, None) None None None ("", None) None None None None in
  forallb (good_visit "/home/u/pkg") [("/home/u/pkg", Some true); ("/home/u/pkg/a.pwn", Some false)] = true /\
  Init unit env "/home/u/pkg" (mkRSt tt []) =
  Panicked (mkRSt tt ([] ++ [RExists "/home/u/pkg" true;
                             RWalk "/home/u/pkg" ([("/home/u/pkg", Some true); ("/home/u/pkg/a.pwn", Some false)] ++
                                                  ("/home/u/pkg/b", None) :: [])%list]))
           "invalid memory address or nil pointer dereference".
Proof.
  cbv zeta; split; [vm_compute; reflexivity|].
  apply Init_nil_info_panics; [reflexivity | reflexivity | vm_compute; reflexivity].
Defined.

Lemma Init_rel_error_returned_witness :
  let env := fixed_renv (fun _ => true) [("/home/u/pkg", Some true); ("b.pwn", Some false)]
               (sample_answers, None) None None None ("", None) None None None None in
  UnixPath.Rel "/home/u/pkg" "b.pwn" = ("", Some (Errorf "Rel: can't make b.pwn relative to /home/u/pkg")) /\
  Init unit env "/home/u/pkg" (mkRSt tt []) =
  Done (mkRSt tt ([] ++ [RExists "/home/u/pkg" true;
                         RWalk "/home/u/pkg" ([("/home/u/pkg", Some true)] ++ ("b.pwn", Some false) :: [])%list]))
       (Some (Errorf "Rel: can't make b.pwn relative to /home/u/pkg")).
Proof.
  cbv zeta; split; [vm_compute; reflexivity|].
  apply (Init_rel_error_returned unit _ "/home/u/pkg" (mkRSt tt []) [("/home/u/pkg", Some true)] "b.pwn" [] "");
    [reflexivity | reflexivity | vm_compute; reflexivity | vm_compute; reflexivity].
Defined.


Lemma Init_asks_about_found_files_witness :
  exists st r t,
    Init unit (sample_init_env (sample_answers, None)) "/home/u/pkg" (mkRSt tt []) = Done st r /\
    rtrace st = ([] ++ [RExists "/home/u/pkg" true; RWalk "/home/u/pkg" sample_visits;
                        RGreen "Found 1 pwn files and 1 inc files.";
                        RAsk (init_questions "pkg" ["gamemode.pwn"] ["inc/lib.inc"])
                             (sample_answers, None)] ++ t)%list.
Proof.
  assert (Hw : walk_rels "/home/u/pkg" sample_visits ".pwn" = ["gamemode.pwn"] /\
               walk_rels "/home/u/pkg" sample_visits ".inc" = ["inc/lib.inc"] /\
               UnixPath.Base "/home/u/pkg" = "pkg" /\
               found_message ["gamemode.pwn"] ["inc/lib.inc"] = "Found 1 pwn files and 1 inc files.")
    by (vm_compute; repeat split).
  destruct Hw as [H1 [H2 [H3 H4]]].
  pose proof (Init_asks_about_found_files unit (sample_init_env (sample_answers, None))
                "/home/u/pkg" (mkRSt tt []) eq_refl ltac:(vm_compute; reflexivity)) as H.
  cbv zeta in H; cbn [rworld rtrace renv_Walk sample_init_env fixed_renv] in H.
  rewrite H1, H2, H3, H4 in H; exact H.
Defined.

Lemma Init_ask_error_returned_witness :
  Init unit (sample_init_env (sample_answers, Some (Errorf "interrupt"))) "/home/u/pkg" (mkRSt tt []) =
  Done (mkRSt tt [RExists "/home/u/pkg" true; RWalk "/home/u/pkg" sample_visits;
                  RGreen "Found 1 pwn files and 1 inc files.";
                  RAsk (init_questions "pkg" ["gamemode.pwn"] ["inc/lib.inc"])
                       (sample_answers, Some (Errorf "interrupt"))])
       (Some (Errorf "interrupt")).
Proof.
  pose proof (Init_ask_error_returned unit (sample_init_env (sample_answers, Some (Errorf "interrupt")))
                "/home/u/pkg" (mkRSt tt []) tt sample_answers (Errorf "interrupt")
                eq_refl ltac:(vm_compute; reflexivity) eq_refl) as H.
  rewrite H; vm_compute; reflexivity.
Defined.

Lemma Init_returns_EnsureDependencies_witness :
  exists t rw r w',
    Init unit (sample_init_env (sample_answers, None)) "/home/u/pkg" (mkRSt tt []) =
    Done (mkRSt w' ([] ++ t ++ [RWriteDefinition (init_package "/home/u/pkg" sample_answers) rw] ++
                    match rw with Some e => [RErro e] | None => [] end ++
                    [RWait; REnsureDependencies (init_package "/home/u/pkg" sample_answers) r])) r.
Proof.
  exact (Init_returns_EnsureDependencies unit (sample_init_env (sample_answers, None))
           "/home/u/pkg" (mkRSt tt []) tt sample_answers eq_refl ltac:(vm_compute; reflexivity) eq_refl).
Defined.

Lemma Init_spawns_chosen_templates_witness :
  exists st r,
    Init unit (sample_init_env (sample_answers, None)) "/home/u/pkg" (mkRSt tt []) = Done st r /\
    spawned (rtrace st) = [".gitignore"; "README.md"; ".vscode/tasks.json"].
Proof.
  destruct (Init_spawns_chosen_templates unit (sample_init_env (sample_answers, None))
              "/home/u/pkg" (mkRSt tt []) tt sample_answers eq_refl ltac:(vm_compute; reflexivity) eq_refl)
    as [st [r [H1 H2]]].
  exists st, r; split; [exact H1 | rewrite H2; reflexivity].
Defined.


Lemma Init_entry_warnings_witness :
  exists st r,
    Init unit (sample_init_env (sample_answers, None)) "/home/u/pkg" (mkRSt tt []) = Done st r /\
    length (warnings (rtrace st)) = 3.
Proof.
  destruct (Init_entry_warnings unit (sample_init_env (sample_answers, None))
              "/home/u/pkg" (mkRSt tt []) tt sample_answers eq_refl ltac:(vm_compute; reflexivity) eq_refl)
    as [st [r [H1 H2]]].
  exists st, r; split; [exact H1 | rewrite H2; vm_compute; reflexivity].
Defined.

Lemma init_package_entry_witness :
  exists stem,
    (stem ++ ".p")%string = "gamemode.p" /\
    types.Entry (init_package "/home/u/pkg" sample_answers) = (stem ++ ".pwn")%string /\
    types.Output (init_package "/home/u/pkg" sample_answers) = (stem ++ ".amx")%string /\
    UnixPath.Ext (types.Entry (init_package "/home/u/pkg" sample_answers)) = ".pwn" /\
    (UnixPath.Ext "gamemode.p" = ".pwn" -> types.Entry (init_package "/home/u/pkg" sample_answers) = "gamemode.p").
Proof.
  exact (init_package_entry "/home/u/pkg" sample_answers ltac:(discriminate)).
Defined.

Lemma getTemplateFile_get_error_witness :
  getTemplateFile unit (sample_get_env ("", Some (Errorf "no network")) None None None None)
    "/home/u/pkg" ".gitignore" (mkRSt tt []) =
  Done (mkRSt tt [RGet (template_url ".gitignore") ("", Some (Errorf "no network"))])
       (Some (Errorf "no network")).
Proof.
  exact (getTemplateFile_get_error unit (sample_get_env ("", Some (Errorf "no network")) None None None None)
             "/home/u/pkg" ".gitignore" (mkRSt tt []) tt ""
           (Errorf "no network") eq_refl).
Defined.

Lemma getTemplateFile_never_overwrites_witness :
  exists st r,
    getTemplateFile unit (sample_get_env ("# readme", None) None None None None)
      "/home/u/pkg" "README.md" (mkRSt tt []) = Done st r /\
    (created (rtrace st) = [] \/ created (rtrace st) = ["init-/home/u/pkg/README.md"]).
Proof.
  exact (getTemplateFile_never_overwrites unit (sample_get_env ("# readme", None) None None None None)
             "/home/u/pkg" "README.md" (mkRSt tt []) tt "# readme"
           eq_refl ltac:(vm_compute; reflexivity)).
Defined.

Lemma getTemplateFile_mkdir_error_witness :
  getTemplateFile unit (sample_get_env ("{}", None) (Some (Errorf "read-only")) None None None)
    "/home/u/pkg" ".vscode/tasks.json" (mkRSt tt []) =
  Done (mkRSt tt [RGet (template_url ".vscode/tasks.json") ("{}", None);
                  RExists "/home/u/pkg/.vscode/tasks.json" false;
                  RMkdirAll "/home/u/pkg/.vscode" (Some (Errorf "read-only"));
                  RCloseBody (template_url ".vscode/tasks.json")])
       (Some (Errorf "read-only")).
Proof.
  rewrite (getTemplateFile_mkdir_error unit (sample_get_env ("{}", None) (Some (Errorf "read-only")) None None None)
             "/home/u/pkg" ".vscode/tasks.json" (mkRSt tt []) tt "{}"
             tt (Errorf "read-only") eq_refl eq_refl).
  vm_compute; reflexivity.
Defined.

Lemma getTemplateFile_returns_close_error_witness :
  getTemplateFile unit (sample_get_env ("# gi", None) None None (Some (Errorf "short write")) None)
    "/home/u/pkg" ".gitignore" (mkRSt tt []) =
  Done (mkRSt tt [RGet (template_url ".gitignore") ("# gi", None);
                  RExists "/home/u/pkg/.gitignore" false;
                  RMkdirAll "/home/u/pkg" None; RCreate "/home/u/pkg/.gitignore" None;
                  RCopy "/home/u/pkg/.gitignore" "# gi" (Some (Errorf "short write"));
                  RClose "/home/u/pkg/.gitignore" None;
                  RCloseBody (template_url ".gitignore")])
       None.
Proof.
  rewrite (getTemplateFile_returns_close_error unit (sample_get_env ("# gi", None) None None (Some (Errorf "short write")) None)
             "/home/u/pkg" ".gitignore" (mkRSt tt []) tt "# gi"
             tt tt tt (Some (Errorf "short write")) tt None eq_refl eq_refl eq_refl eq_refl eq_refl).
  vm_compute; reflexivity.
Defined.

Lemma getTemplateFile_closes_body_last_witness :
  exists st r t,
    getTemplateFile unit (sample_get_env ("# gi", None) None None None None)
      "/home/u/pkg" ".gitignore" (mkRSt tt []) = Done st r /\
    rtrace st = ([] ++ [RGet (template_url ".gitignore") ("# gi", None)] ++ t ++
                 [RCloseBody (template_url ".gitignore")])%list /\
    ~ In (RCloseBody (template_url ".gitignore")) t.
Proof.
  exact (getTemplateFile_closes_body_last unit (sample_get_env ("# gi", None) None None None None)
             "/home/u/pkg" ".gitignore" (mkRSt tt []) tt "# gi" eq_refl).
Defined.


Lemma GetCompilerPackage_cache_dir_error_witness :
  GetCompilerPackage unit "linux" env_no_cache_dir "3.10.10" "/d" (init_st tt) =
  Done (mkSt tt [EvPrint "Downloading compiler package";
                 EvGetCacheDir ("", Some (Errorf "failed to get home directory"))]
             heap_init 4%positive catalog_init)
       (Some (Errorf "failed to get home directory")).
Proof.
  exact (GetCompilerPackage_cache_dir_error unit "linux" env_no_cache_dir "3.10.10" "/d" (init_st tt)
           tt "" (Errorf "failed to get home directory") eq_refl).
Defined.

Lemma CompilerFromNet_dir_error_witness :
  exists st,
    CompilerFromNet unit "linux" env_readonly_dir cache_root "3.10.10" "/d" (init_st tt) =
    Done st (Some (Wrap (Errorf "mkdir /d: permission denied") "failed to create dir /d")) /\
    trace st = [EvPrintPaths linux_paths_3_10_10; EvExists "/d" false;
                EvMkdirAll "/d" (Some (Errorf "mkdir /d: permission denied"))].
Proof.
  set (s1 := out_state (GetCompilerPackageInfo unit "linux" "linux" "3.10.10" (init_st tt))).
  assert (H : GetCompilerPackageInfo unit "linux" "linux" "3.10.10" (init_st tt) =
                Done s1 (linux_pkg_3_10_10, "pawnc-3.10.10-linux.tar.gz", None))
    by (subst_lets; vm_compute; reflexivity).
  rewrite (CompilerFromNet_dir_error unit "linux" env_readonly_dir cache_root "3.10.10" "/d" (init_st tt)
             s1 linux_pkg_3_10_10 "pawnc-3.10.10-linux.tar.gz" tt (Errorf "mkdir /d: permission denied")
             H ltac:(subst_lets; vm_compute; reflexivity) ltac:(subst_lets; vm_compute; reflexivity)).
  eexists; split; [reflexivity|]. subst_lets; vm_compute; reflexivity.
Defined.

Lemma CompilerFromNet_cache_dir_error_witness :
  exists st,
    CompilerFromNet unit "linux" env_readonly_cache cache_root "3.10.10" "/d" (init_st tt) =
    Done st (Some (Wrap (Errorf "mkdir /home/u/.samp: permission denied")
                        "failed to create cache /home/u/.samp")) /\
    trace st = [EvPrintPaths linux_paths_3_10_10; EvExists "/d" true; EvExists cache_root false;
                EvMkdirAll cache_root (Some (Errorf "mkdir /home/u/.samp: permission denied"))].
Proof.
  set (s1 := out_state (GetCompilerPackageInfo unit "linux" "linux" "3.10.10" (init_st tt))).
  assert (H : GetCompilerPackageInfo unit "linux" "linux" "3.10.10" (init_st tt) =
                Done s1 (linux_pkg_3_10_10, "pawnc-3.10.10-linux.tar.gz", None))
    by (subst_lets; vm_compute; reflexivity).
  rewrite (CompilerFromNet_cache_dir_error unit "linux" env_readonly_cache cache_root "3.10.10" "/d"
             (init_st tt) s1 linux_pkg_3_10_10 "pawnc-3.10.10-linux.tar.gz" tt
             (Errorf "mkdir /home/u/.samp: permission denied")
             H ltac:(subst_lets; vm_compute; reflexivity) ltac:(subst_lets; vm_compute; reflexivity)
             ltac:(subst_lets; vm_compute; reflexivity)).
  eexists; split; [reflexivity|]. subst_lets; vm_compute; reflexivity.
Defined.

Lemma CompilerFromNet_extract_result_witness :
  let o := CompilerFromNet unit "linux" env_bad_archive cache_root "3.10.10" "/d" (init_st tt) in
  In (EvExtract Untar "/home/u/.samp/pawnc-3.10.10-linux.tar.gz" "/d" linux_paths_3_10_10
                (Some (Errorf "gzip: invalid header"))) (trace (out_state o)) /\
  o = Done (out_state o)
           (Some (Wrap (Errorf "gzip: invalid header")
                       "failed to unzip package /home/u/.samp/pawnc-3.10.10-linux.tar.gz")).
Proof.
  intros o.
  set (s1 := out_state (GetCompilerPackageInfo unit "linux" "linux" "3.10.10" (init_st tt))).
  assert (H : GetCompilerPackageInfo unit "linux" "linux" "3.10.10" (init_st tt) =
                Done s1 (linux_pkg_3_10_10, "pawnc-3.10.10-linux.tar.gz", None))
    by (subst_lets; vm_compute; reflexivity).
  assert (Hin : In (EvExtract Untar "/home/u/.samp/pawnc-3.10.10-linux.tar.gz" "/d" linux_paths_3_10_10
                              (Some (Errorf "gzip: invalid header"))) (trace (out_state o)))
    by (subst_lets; vm_compute; auto 10).
  split; [exact Hin|].
  exact (CompilerFromNet_extract_result unit "linux" env_bad_archive cache_root "3.10.10" "/d"
           (init_st tt) s1 linux_pkg_3_10_10 "pawnc-3.10.10-linux.tar.gz" H Untar
           "/home/u/.samp/pawnc-3.10.10-linux.tar.gz" (Some (Errorf "gzip: invalid header"))
           Hin ltac:(subst_lets; vm_compute; intros [])).
Defined.
